(** * NeuroSecretary: the audio-to-protocol pipeline of a Telegram bot

    A shallow embedding of [neuro_secretary2.py] (and of the earlier
    [neuro_secretary.py], for the one place where the two differ in a way a
    stated property depends on), with the properties of the pipeline contract
    stated and proved over it.

    Conventions of the model.
    - A Python [str] is a Rocq [string] holding its UTF-8 encoding, so that
      [s.encode()] is the identity.  Lone surrogates, which [encode] rejects,
      are outside the model.
    - The file system is a finite map from paths to nodes; the platform is
      POSIX ([os.sep] is a slash, [os.linesep] is a line feed).
    - Everything the program delegates to a library or a remote service
      (decoding, denoising, speech recognition, the chat completion API, the
      Telegram transport) is a field of the record [services]: an arbitrary
      function that may return a value or raise.  The remote ones also
      receive the number of events that happened so far, so that they may
      answer the same question differently at different times.
    - Exceptions are instances of Python's [Exception]; interpreter-level
      signals ([KeyboardInterrupt], [SystemExit], task cancellation) are
      outside the model.
    - One request is run from start to end; interleavings of several
      requests at their suspension points are outside the model. *)

From Stdlib Require Import ZArith QArith Ascii String List Lia.
From stdpp Require Import base option gmap strings list fin_maps pretty.
Import ListNotations.

Local Open Scope Z_scope.

(** ** Characters and strings *)

Definition LF : ascii := "010"%char.
Definition CR : ascii := "013"%char.
Definition nl : string := String LF EmptyString.

(** ** hashlib.md5 (RFC 1321) *)

Module MD5.

Definition bytes_of_string (s : string) : list Z :=
  map (fun c => Z.of_N (N_of_ascii c)) (list_ascii_of_string s).

Definition w32 (x : Z) : Z := x mod 2 ^ 32.
Definition add32 (x y : Z) : Z := w32 (x + y).
Definition not32 (x : Z) : Z := Z.lxor x 0xffffffff.
Definition rotl32 (x : Z) (c : Z) : Z :=
  Z.lor (w32 (Z.shiftl x c)) (Z.shiftr x (32 - c)).

(** per-round shift amounts *)
Definition S_table : list Z :=
  [ 7; 12; 17; 22; 7; 12; 17; 22; 7; 12; 17; 22; 7; 12; 17; 22;
    5;  9; 14; 20; 5;  9; 14; 20; 5;  9; 14; 20; 5;  9; 14; 20;
    4; 11; 16; 23; 4; 11; 16; 23; 4; 11; 16; 23; 4; 11; 16; 23;
    6; 10; 15; 21; 6; 10; 15; 21; 6; 10; 15; 21; 6; 10; 15; 21 ].

(** K[i] = floor (2^32 * abs (sin (i + 1))) *)
Definition K_table : list Z :=
  [ 0xd76aa478; 0xe8c7b756; 0x242070db; 0xc1bdceee;
    0xf57c0faf; 0x4787c62a; 0xa8304613; 0xfd469501;
    0x698098d8; 0x8b44f7af; 0xffff5bb1; 0x895cd7be;
    0x6b901122; 0xfd987193; 0xa679438e; 0x49b40821;
    0xf61e2562; 0xc040b340; 0x265e5a51; 0xe9b6c7aa;
    0xd62f105d; 0x02441453; 0xd8a1e681; 0xe7d3fbc8;
    0x21e1cde6; 0xc33707d6; 0xf4d50d87; 0x455a14ed;
    0xa9e3e905; 0xfcefa3f8; 0x676f02d9; 0x8d2a4c8a;
    0xfffa3942; 0x8771f681; 0x6d9d6122; 0xfde5380c;
    0xa4beea44; 0x4bdecfa9; 0xf6bb4b60; 0xbebfbc70;
    0x289b7ec6; 0xeaa127fa; 0xd4ef3085; 0x04881d05;
    0xd9d4d039; 0xe6db99e5; 0x1fa27cf8; 0xc4ac5665;
    0xf4292244; 0x432aff97; 0xab9423a7; 0xfc93a039;
    0x655b59c3; 0x8f0ccc92; 0xffeff47d; 0x85845dd1;
    0x6fa87e4f; 0xfe2ce6e0; 0xa3014314; 0x4e0811a1;
    0xf7537e82; 0xbd3af235; 0x2ad7d2bb; 0xeb86d391 ].

Definition nthZ (l : list Z) (i : nat) : Z := nth i l 0.

(** the padded message: 0x80, zeros up to 56 mod 64, the bit length on
    eight little-endian bytes *)
Definition le_bytes (n : nat) (x : Z) : list Z :=
  map (fun i => (x / 2 ^ (8 * Z.of_nat i)) mod 256) (seq 0 n).

Definition pad (msg : list Z) : list Z :=
  let len := Z.of_nat (length msg) in
  let zeros := Z.to_nat ((55 - len) mod 64) in
  msg ++ [0x80] ++ repeat 0 zeros ++ le_bytes 8 ((8 * len) mod 2 ^ 64).

Definition word_le (b : list Z) : Z :=
  nthZ b 0 + 2 ^ 8 * nthZ b 1 + 2 ^ 16 * nthZ b 2 + 2 ^ 24 * nthZ b 3.

Fixpoint words_le (n : nat) (b : list Z) : list Z :=
  match n with
  | O => []
  | S n' => word_le b :: words_le n' (skipn 4 b)
  end.

Fixpoint blocks (n : nat) (b : list Z) : list (list Z) :=
  match n with
  | O => []
  | S n' => words_le 16 (firstn 64 b) :: blocks n' (skipn 64 b)
  end.

Record regs := Regs { rA : Z; rB : Z; rC : Z; rD : Z }.

Definition init : regs :=
  Regs 0x67452301 0xefcdab89 0x98badcfe 0x10325476.

Definition round (M : list Z) (r : regs) (i : nat) : regs :=
  let '(Regs a b c d) := r in
  let q := (i / 16)%nat in
  let f :=
    match q with
    | 0%nat => Z.lor (Z.land b c) (Z.land (not32 b) d)
    | 1%nat => Z.lor (Z.land d b) (Z.land (not32 d) c)
    | 2%nat => Z.lxor b (Z.lxor c d)
    | _ => Z.lxor c (Z.lor b (not32 d))
    end in
  let g :=
    match q with
    | 0%nat => i
    | 1%nat => ((5 * i + 1) mod 16)%nat
    | 2%nat => ((3 * i + 5) mod 16)%nat
    | _ => ((7 * i) mod 16)%nat
    end in
  let f' := add32 (add32 (add32 f a) (nthZ K_table i)) (nthZ M g) in
  Regs d (add32 b (rotl32 f' (nthZ S_table i))) b c.

Definition compress (r : regs) (M : list Z) : regs :=
  let r' := fold_left (round M) (seq 0 64) r in
  Regs (add32 (rA r) (rA r')) (add32 (rB r) (rB r'))
       (add32 (rC r) (rC r')) (add32 (rD r) (rD r')).

(** [hashlib.md5(data).digest()]: sixteen bytes *)
Definition digest (data : string) : list ascii :=
  let p := pad (bytes_of_string data) in
  let r := fold_left compress (blocks (length p / 64) p) init in
  map (fun b => ascii_of_N (Z.to_N b))
      (le_bytes 4 (rA r) ++ le_bytes 4 (rB r) ++
       le_bytes 4 (rC r) ++ le_bytes 4 (rD r)).

Definition hexdigit (b3 b2 b1 b0 : bool) : ascii :=
  match b3, b2, b1, b0 with
  | false, false, false, false => "0"
  | false, false, false, true => "1"
  | false, false, true, false => "2"
  | false, false, true, true => "3"
  | false, true, false, false => "4"
  | false, true, false, true => "5"
  | false, true, true, false => "6"
  | false, true, true, true => "7"
  | true, false, false, false => "8"
  | true, false, false, true => "9"
  | true, false, true, false => "a"
  | true, false, true, true => "b"
  | true, true, false, false => "c"
  | true, true, false, true => "d"
  | true, true, true, false => "e"
  | true, true, true, true => "f"
  end%char.

Fixpoint hex (bs : list ascii) : string :=
  match bs with
  | [] => EmptyString
  | Ascii b0 b1 b2 b3 b4 b5 b6 b7 :: bs' =>
      String (hexdigit b7 b6 b5 b4) (String (hexdigit b3 b2 b1 b0) (hex bs'))
  end.

(** [hashlib.md5(data).hexdigest()] *)
Definition hexdigest (data : string) : string := hex (digest data).

End MD5.

(** ** Exceptions, results and the log *)

(** An exception instance: its class name and [str(e)], the text an
    f-string prints for it. *)
Record exn := Exn { exn_class : string; exn_str : string }.

Inductive result (A : Type) : Type :=
| Ok (a : A)
| Raise (e : exn).
Arguments Ok {A} a.
Arguments Raise {A} e.

Definition ValueError (msg : string) : exn := Exn "ValueError" msg.
Definition AttributeError (msg : string) : exn := Exn "AttributeError" msg.
Definition FileNotFoundError (path : string) : exn :=
  Exn "FileNotFoundError"
      ("[Errno 2] No such file or directory: '" +:+ path +:+ "'").
Definition IsADirectoryError (path : string) : exn :=
  Exn "IsADirectoryError" ("[Errno 21] Is a directory: '" +:+ path +:+ "'").
Definition FileExistsError (path : string) : exn :=
  Exn "FileExistsError" ("[Errno 17] File exists: '" +:+ path +:+ "'").

Inductive level := INFO | ERROR.

(** ** Requests to the chat completion service *)

Record chat_request := ChatRequest {
  model : string;
  messages : list (string * string);   (* role, content *)
  temperature : Q;
  max_tokens : option Z
}.

(** ** The world: files and the history of observable events *)

Inductive node :=
| File (content : string)
| Dir.

Inductive event :=
| EvLog (lvl : level) (msg : string)
| EvLoadModel (name : string)
| EvGetFile
| EvDownload (path : string)
| EvSfRead (path : string)
| EvReduceNoise
| EvSfWrite (path : string)
| EvSfInfo (path : string)
| EvTranscribe (path : string)
| EvChat (req : chat_request)
| EvReply (text : string) (parse_mode : option string) (delivered : bool).

Record world := World {
  fs : gmap string node;
  trace : list event
}.

Definition now (w : world) : nat := length (trace w).

(** ** A state-and-exception monad: the state survives a raise *)

Definition M (A : Type) : Type := world -> result A * world.

Definition ret {A} (a : A) : M A := fun w => (Ok a, w).
Definition raise {A} (e : exn) : M A := fun w => (Raise e, w).
Definition bind {A B} (m : M A) (k : A -> M B) : M B :=
  fun w =>
    match m w with
    | (Ok a, w') => k a w'
    | (Raise e, w') => (Raise e, w')
    end.

(** [try: m  except Exception as e: h e] *)
Definition try_except {A} (m : M A) (h : exn -> M A) : M A :=
  fun w =>
    match m w with
    | (Ok a, w') => (Ok a, w')
    | (Raise e, w') => h e w'
    end.

Notation "x <- m ;; k" := (bind m (fun x => k))
  (at level 20, m at level 99, k at level 200, only parsing).
Notation "' p <- m ;; k" := (bind m (fun p => k))
  (at level 20, p pattern, m at level 99, k at level 200, only parsing).
Notation "m ;;; k" := (bind m (fun _ => k))
  (at level 100, k at level 200, only parsing, right associativity).

Definition emit (ev : event) : M unit :=
  fun w => (Ok tt, World (fs w) (trace w ++ [ev])).

(** A call that leaves the process: the event is recorded, the answer is
    the collaborator's at the current time. *)
Definition extern {A} (ev : result A -> event) (answer : nat -> result A) : M A :=
  fun w =>
    let r := answer (now w) in
    (r, World (fs w) (trace w ++ [ev r])).

Definition was_ok {A} (r : result A) : bool :=
  match r with Ok _ => true | Raise _ => false end.

Definition logger_info (msg : string) : M unit := emit (EvLog INFO msg).
Definition logger_error (msg : string) : M unit := emit (EvLog ERROR msg).

(** ** The file system calls the program makes *)

Definition stat (path : string) : M (option node) :=
  fun w => (Ok (fs w !! path), w).

Definition put_file (path : string) (content : string) : M unit :=
  fun w =>
    match fs w !! path with
    | Some Dir => (Raise (IsADirectoryError path), w)
    | _ => (Ok tt, World (<[path := File content]> (fs w)) (trace w))
    end.

(** [os.makedirs(path, exist_ok=True)], for a path of one component *)
Definition os_makedirs (path : string) : M unit :=
  fun w =>
    match fs w !! path with
    | Some Dir => (Ok tt, w)
    | Some (File _) => (Raise (FileExistsError path), w)
    | None => (Ok tt, World (<[path := Dir]> (fs w)) (trace w))
    end.

Definition os_path_join (a b : string) : string := a +:+ "/" +:+ b.

Definition os_path_exists (path : string) : M bool :=
  fun w => (Ok (match fs w !! path with Some _ => true | None => false end), w).

Definition os_remove (path : string) : M unit :=
  fun w =>
    match fs w !! path with
    | Some (File _) => (Ok tt, World (delete path (fs w)) (trace w))
    | Some Dir => (Raise (IsADirectoryError path), w)
    | None => (Raise (FileNotFoundError path), w)
    end.

(** Text mode, as [open(path, "r")] and [open(path, "w")] give it with
    [newline=None]: on reading, universal newlines are on, so CR LF and a
    lone CR both arrive as LF; on writing, LF is replaced by [os.linesep],
    which is LF itself here. *)
Fixpoint universal_newlines (s : string) : string :=
  match s with
  | EmptyString => EmptyString
  | String c s' =>
      if Ascii.eqb c CR then
        match s' with
        | String c' s'' =>
            if Ascii.eqb c' LF then String LF (universal_newlines s'')
            else String LF (universal_newlines s')
        | EmptyString => String LF EmptyString
        end
      else String c (universal_newlines s')
  end.

(** the strings without a carriage return *)
Fixpoint no_CR (s : string) : bool :=
  match s with
  | EmptyString => true
  | String c s' => negb (Ascii.eqb c CR) && no_CR s'
  end.

(** [with open(path, "r") as f: return f.read()] *)
Definition read_text (path : string) : M string :=
  fun w =>
    match fs w !! path with
    | Some (File c) => (Ok (universal_newlines c), w)
    | Some Dir => (Raise (IsADirectoryError path), w)
    | None => (Raise (FileNotFoundError path), w)
    end.

(** [with open(path, "w") as f: f.write(text)] *)
Definition write_text (path : string) (text : string) : M unit :=
  put_file path text.

(** ** The Telegram update and the collaborators *)

Record User := { username : option string; id : Z }.

Record Update := {
  from_user : option User;       (* [update.message.from_user] *)
  audio : string                 (* [update.message.audio.file_id] *)
}.

Record TgFile := { file_id : string }.

(** What the program calls and does not define.  [sf_read] and
    [sf_info_duration] see the node at the path they are given; [sf_write]
    is the encoder and returns the bytes that land in the target file.
    [sf_info_duration] is [sf.info(path).duration], a finite float, given
    as the rational number it denotes, on which the comparison with the
    integer ceiling is exact; [float_str] is Python's [str] on floats. *)
Record services (Sample Model : Type) := Services {
  sf_read : option node -> result (list Sample * Z);
  sf_write : list Sample -> Z -> result string;
  sf_info_duration : option node -> result Q;
  nr_reduce_noise : list Sample -> Z -> result (list Sample);
  whisper_load_model : nat -> string -> result Model;
  whisper_transcribe : nat -> Model -> option node -> result string;
  ChatCompletion_create : nat -> chat_request -> result string;
  get_file : nat -> Update -> result TgFile;
  download : nat -> TgFile -> result string;
  reply : nat -> string -> option string -> result unit;
  float_str : Q -> string
}.
Arguments sf_read {Sample Model} _ _.
Arguments sf_write {Sample Model} _ _ _.
Arguments sf_info_duration {Sample Model} _ _.
Arguments nr_reduce_noise {Sample Model} _ _ _.
Arguments whisper_load_model {Sample Model} _ _ _.
Arguments whisper_transcribe {Sample Model} _ _ _ _.
Arguments ChatCompletion_create {Sample Model} _ _ _.
Arguments get_file {Sample Model} _ _ _.
Arguments download {Sample Model} _ _ _.
Arguments reply {Sample Model} _ _ _ _.
Arguments float_str {Sample Model} _ _.

(** Python prints an absent attribute value as [None]. *)
Definition str_opt (o : option string) : string :=
  match o with Some s => s | None => "None" end.

Section Calls.
Context {Sample Model : Type} (ext : services Sample Model).

Definition call_sf_read (path : string) : M (list Sample * Z) :=
  n <- stat path ;;
  extern (fun _ => EvSfRead path) (fun _ => sf_read ext n).

Definition call_reduce_noise (y : list Sample) (sr : Z) : M (list Sample) :=
  extern (fun _ => EvReduceNoise) (fun _ => nr_reduce_noise ext y sr).

Definition call_sf_write (path : string) (data : list Sample) (rate : Z)
  : M unit :=
  bytes <- extern (fun _ => EvSfWrite path) (fun _ => sf_write ext data rate) ;;
  put_file path bytes.

Definition call_sf_info (path : string) : M Q :=
  n <- stat path ;;
  extern (fun _ => EvSfInfo path) (fun _ => sf_info_duration ext n).

Definition call_load_model (name : string) : M Model :=
  extern (fun _ => EvLoadModel name) (fun t => whisper_load_model ext t name).

Definition call_transcribe (m : Model) (path : string) : M string :=
  n <- stat path ;;
  extern (fun _ => EvTranscribe path) (fun t => whisper_transcribe ext t m n).

Definition call_chat (req : chat_request) : M string :=
  extern (fun _ => EvChat req) (fun t => ChatCompletion_create ext t req).

Definition call_get_file (u : Update) : M TgFile :=
  extern (fun _ => EvGetFile) (fun t => get_file ext t u).

Definition download_to_drive (f : TgFile) (path : string) : M unit :=
  bytes <- extern (fun _ => EvDownload path) (fun t => download ext t f) ;;
  put_file path bytes.

Definition reply_text (text : string) (parse_mode : option string) : M unit :=
  extern (fun r => EvReply text parse_mode (was_ok r))
         (fun t => reply ext t text parse_mode).

End Calls.

(** ** neuro_secretary2.py *)

Definition GPT_MODEL : string := "gpt-4-turbo-preview".
Definition MAX_AUDIO_DURATION : Z := 60 * 60 * 2.

Definition ANALYZE_PROMPT : string :=
  "Проанализируй текст совещания. Выдели участников, вопросы, решения и ответственных.".
Definition PROTOCOL_PROMPT : string :=
  "Создай протокол совещания на основе предоставленных данных.".

Definition EMPTY_AUDIO_MESSAGE : string := "Пустой аудиофайл".

Definition SUCCESS_PREFIX : string :=
  "✅ Протокол успешно сгенерирован:" +:+ nl +:+ nl.
Definition FAILURE_NOTICE : string :=
  "❌ Произошла ошибка при обработке файла. Пожалуйста, попробуйте позже.".

Section Secretary2.
Context {Sample Model : Type} (ext : services Sample Model).

(** The model object bound at import time by
    [WHISPER_MODEL = whisper.load_model("base")]. *)
Variable WHISPER_MODEL : Model.

Definition too_long_message (duration : Q) : string :=
  "Аудио слишком длинное (" +:+ float_str ext duration +:+ "s > "
    +:+ pretty MAX_AUDIO_DURATION +:+ "s)".

Definition clean_audio (input_file output_file : string) : M unit :=
  try_except
    ('(data, rate) <- call_sf_read ext input_file ;;
     if (length data =? 0)%nat then raise (ValueError EMPTY_AUDIO_MESSAGE)
     else
       reduced_noise <- call_reduce_noise ext data rate ;;
       call_sf_write ext output_file reduced_noise rate)
    (fun e =>
       logger_error ("Ошибка очистки аудио: " +:+ exn_str e) ;;;
       raise e).

Definition transcribe_audio (audio_file : string) : M string :=
  try_except
    (duration <- call_sf_info ext audio_file ;;
     if negb (Qle_bool duration (inject_Z MAX_AUDIO_DURATION))
     then raise (ValueError (too_long_message duration))
     else call_transcribe ext WHISPER_MODEL audio_file)
    (fun e =>
       logger_error ("Ошибка транскрибации: " +:+ exn_str e) ;;;
       raise e).

Definition analysis_request (text : string) : chat_request :=
  ChatRequest GPT_MODEL
              [("system", ANALYZE_PROMPT); ("user", text)]
              (2 # 10) (Some 3000).

Definition analyze_text (text : string) : M string :=
  try_except
    (call_chat ext (analysis_request text))
    (fun e =>
       logger_error ("Ошибка анализа текста: " +:+ exn_str e) ;;;
       raise e).

Definition cache_dir : string := "cache".

Definition cache_file (analysis_result : string) : string :=
  os_path_join cache_dir (MD5.hexdigest analysis_result +:+ ".txt").

Definition protocol_request (analysis_result : string) : chat_request :=
  ChatRequest GPT_MODEL
              [("system", PROTOCOL_PROMPT); ("user", analysis_result)]
              (5 # 10) (Some 3000).

Definition generate_protocol (analysis_result : string) : M string :=
  os_makedirs cache_dir ;;;
  hit <- os_path_exists (cache_file analysis_result) ;;
  if hit : bool then read_text (cache_file analysis_result)
  else
    try_except
      (result <- call_chat ext (protocol_request analysis_result) ;;
       write_text (cache_file analysis_result) result ;;;
       ret result)
      (fun e =>
         logger_error ("Ошибка генерации протокола: " +:+ exn_str e) ;;;
         raise e).

Definition input_file_of (f : TgFile) : string :=
  "temp_" +:+ MD5.hexdigest (file_id f) +:+ ".wav".

(** [user.username] and [user.id] on what may be [None] *)
Definition greeting (u : Update) : M string :=
  match from_user u with
  | Some user =>
      ret ("Получено аудио от " +:+ str_opt (username user) +:+ " ("
             +:+ pretty (id user) +:+ ")")
  | None =>
      raise (AttributeError "'NoneType' object has no attribute 'username'")
  end.

(** The first statements under [try:] in [handle_audio], up to and
    including the transcription: the path of the temporary file and the
    transcript. *)
Definition up_to_transcript (update : Update) : M (string * string) :=
  line <- greeting update ;;
  logger_info line ;;;
  file <- call_get_file ext update ;;
  let input_file := input_file_of file in
  download_to_drive ext file input_file ;;;
  clean_audio input_file input_file ;;;
  transcript <- transcribe_audio input_file ;;
  ret (input_file, transcript).

(** The statements under [try:] in [handle_audio]. *)
Definition handle_audio_body (update : Update) : M unit :=
  line <- greeting update ;;
  logger_info line ;;;
  file <- call_get_file ext update ;;
  let input_file := input_file_of file in
  download_to_drive ext file input_file ;;;
  clean_audio input_file input_file ;;;
  transcript <- transcribe_audio input_file ;;
  analysis <- analyze_text transcript ;;
  protocol <- generate_protocol analysis ;;
  reply_text ext (SUCCESS_PREFIX +:+ protocol) (Some "Markdown") ;;;
  os_remove input_file.

Definition handle_audio (update : Update) : M unit :=
  try_except
    (handle_audio_body update)
    (fun e =>
       logger_error ("Ошибка обработки: " +:+ exn_str e) ;;;
       reply_text ext FAILURE_NOTICE None).

End Secretary2.

(** ** neuro_secretary.py, the earlier program *)

Module V1.
Section Secretary1.
Context {Sample Model : Type} (ext : services Sample Model).

Definition WHISPER_MODEL : string := "base".

Definition clean_audio (input_file output_file : string) : M unit :=
  '(data, rate) <- call_sf_read ext input_file ;;
  reduced_noise <- call_reduce_noise ext data rate ;;
  call_sf_write ext output_file reduced_noise rate.

Definition transcribe_audio (audio_file : string) : M string :=
  model <- call_load_model ext WHISPER_MODEL ;;
  call_transcribe ext model audio_file.

Definition analyze_text (text : string) : M string :=
  call_chat ext
    (ChatRequest GPT_MODEL [("system", ANALYZE_PROMPT); ("user", text)]
                 (2 # 10) None).

Definition generate_protocol (analysis_result : string) : M string :=
  call_chat ext
    (ChatRequest GPT_MODEL
                 [("system", PROTOCOL_PROMPT); ("user", analysis_result)]
                 (5 # 10) None).

Definition handle_audio (update : Update) : M unit :=
  file <- call_get_file ext update ;;
  download_to_drive ext file "input_audio.wav" ;;;
  clean_audio "input_audio.wav" "cleaned_audio.wav" ;;;
  transcript <- transcribe_audio "cleaned_audio.wav" ;;
  analysis_result <- analyze_text transcript ;;
  protocol <- generate_protocol analysis_result ;;
  reply_text ext protocol None.

End Secretary1.
End V1.

(** ** The process: import-time initialisation, then the polling loop *)

(** [Application.run_polling] hands each update to the registered handler;
    an exception that leaves the handler is reported by the framework and
    the loop goes on with the next update. *)
Definition dispatch (handler : Update -> M unit) (u : Update) : M unit :=
  try_except (handler u) (fun _ => ret tt).

Fixpoint serve (handler : Update -> M unit) (updates : list Update) : M unit :=
  match updates with
  | [] => ret tt
  | u :: rest => dispatch handler u ;;; serve handler rest
  end.

Section Processes.
Context {Sample Model : Type} (ext : services Sample Model).

(** neuro_secretary2.py: the module body loads the model, [main] polls. *)
Definition process (updates : list Update) : M unit :=
  WHISPER_MODEL <- call_load_model ext "base" ;;
  serve (handle_audio ext WHISPER_MODEL) updates.


End Processes.

(** ** What a run shows to the outside *)

Definition replies (t : list event) : list (string * option string * bool) :=
  omap (fun ev =>
          match ev with
          | EvReply text mode ok => Some (text, mode, ok)
          | _ => None
          end) t.

Definition chats (t : list event) : list chat_request :=
  omap (fun ev => match ev with EvChat req => Some req | _ => None end) t.

Definition loads (t : list event) : list string :=
  omap (fun ev => match ev with EvLoadModel n => Some n | _ => None end) t.

Definition errors (t : list event) : list string :=
  omap (fun ev => match ev with EvLog ERROR msg => Some msg | _ => None end) t.

(** the texts that got through to the user *)
Definition delivered (t : list event) : list (string * option string) :=
  omap (fun ev =>
          match ev with
          | EvReply text mode true => Some (text, mode)
          | _ => None
          end) t.

(** the events of a run that started in [w] and ended in [w'] *)
Definition since (w w' : world) : list event := drop (now w) (trace w').

(** the paths on which two worlds differ *)
Definition changed (w w' : world) (p : string) : Prop :=
  fs w' !! p <> fs w !! p.

Definition is_transform (ev : event) : bool :=
  match ev with
  | EvReduceNoise | EvSfWrite _ | EvTranscribe _ | EvChat _ => true
  | _ => false
  end.

(** ** The stages of a request, in order *)




(** the digits of [hexdigest] *)
Definition is_hex (c : ascii) : bool :=
  existsb (Ascii.eqb c) (list_ascii_of_string "0123456789abcdef").

(** ** The other handler and [main] *)

Definition WELCOME : string :=
  "🤖 Добро пожаловать в NeuroSecretary!" +:+ nl +:+ nl +:+
  "Отправьте аудиофайл с записью совещания, и я сгенерирую протокол.".

(** What the polling loop receives: a command, a message with an audio
    attachment, or any other message. *)
Inductive Incoming :=
| Command (name : string)
| Audio (update : Update)
| Other.

Section Main.
Context {Sample Model : Type} (ext : services Sample Model).
Variable WHISPER_MODEL : Model.

Definition start : M unit := reply_text ext WELCOME None.

(** The handlers [main] registers: [CommandHandler("start", start)], then
    [MessageHandler(filters.AUDIO, handle_audio)].  A message that matches
    neither is not handled. *)
Definition route (i : Incoming) : M unit :=
  match i with
  | Command name => if String.eqb name "start" then start else ret tt
  | Audio update => handle_audio ext WHISPER_MODEL update
  | Other => ret tt
  end.

(** [application.run_polling()], as [serve] has it: an exception that
    leaves a handler is reported by the framework and the loop goes on. *)
Fixpoint run_polling (incoming : list Incoming) : M unit :=
  match incoming with
  | [] => ret tt
  | i :: rest => try_except (route i) (fun _ => ret tt) ;;; run_polling rest
  end.



Definition main (incoming : list Incoming) : M unit :=
  run_polling incoming ;;;
  logger_info "Бот успешно запущен".

End Main.

(** ** Two runs that differ in the text of the exceptions *)

Definition relabel {A} (f : exn -> exn) (r : result A) : result A :=
  match r with
  | Ok a => Ok a
  | Raise e => Raise (f e)
  end.

(** The same collaborators, raising [f e] wherever they raised [e]. *)
Definition relabel_services {Sample Model} (f : exn -> exn)
           (ext : services Sample Model) : services Sample Model :=
  {| sf_read := fun n => relabel f (sf_read ext n);
     sf_write := fun data rate => relabel f (sf_write ext data rate);
     sf_info_duration := fun n => relabel f (sf_info_duration ext n);
     nr_reduce_noise := fun y sr => relabel f (nr_reduce_noise ext y sr);
     whisper_load_model := fun t n => relabel f (whisper_load_model ext t n);
     whisper_transcribe :=
       fun t m n => relabel f (whisper_transcribe ext t m n);
     ChatCompletion_create :=
       fun t req => relabel f (ChatCompletion_create ext t req);
     get_file := fun t u => relabel f (get_file ext t u);
     download := fun t file => relabel f (download ext t file);
     reply := fun t text mode => relabel f (reply ext t text mode);
     float_str := float_str ext |}.

(** Two events are alike when they differ at most in the text of a log
    line. *)
Inductive alike : event -> event -> Prop :=
| alike_log lvl msg msg' : alike (EvLog lvl msg) (EvLog lvl msg')
| alike_same ev : alike ev ev.

Definition wsim (w w' : world) : Prop :=
  fs w = fs w' /\ Forall2 alike (trace w) (trace w').

Definition rsim {A} (r r' : result A) : Prop :=
  match r, r' with
  | Ok a, Ok a' => a = a'
  | Raise _, Raise _ => True
  | _, _ => False
  end.

Definition sim {A} (m m' : M A) : Prop :=
  forall w w', wsim w w' ->
               rsim (fst (m w)) (fst (m' w')) /\ wsim (snd (m w)) (snd (m' w')).

(** ** Concrete collaborators, for running the model *)

Module Demo.

Definition net_down : exn := Exn "NetworkError" "httpx.ConnectError".
Definition auth_error : exn :=
  Exn "AuthenticationError" "Incorrect API key provided".

Definition cannot_open : exn :=
  Exn "LibsndfileError" "Error opening file: System error.".

(** A decoder that yields one sample per byte and an encoder that writes
    one byte per sample. *)
Definition decode (n : option node) : result (list ascii * Z) :=
  match n with
  | Some (File c) => Ok (list_ascii_of_string c, 16000)
  | _ => Raise cannot_open
  end.

Definition duration (secs : Q) (n : option node) : result Q :=
  match n with
  | Some (File _) => Ok secs
  | _ => Raise cannot_open
  end.

(** The chat service: [analysis] answers the analysis prompt,
    [protocol] the protocol prompt. *)
Definition chat (analysis protocol : result string) (req : chat_request)
  : result string :=
  match messages req with
  | (_, prompt) :: _ =>
      if String.eqb prompt ANALYZE_PROMPT then analysis else protocol
  | [] => Raise (Exn "InvalidRequestError" "no messages")
  end.

Definition ext (secs : Q) (fetch analysis protocol : result string)
           (send : nat -> result unit) : services ascii unit :=
  {| sf_read := decode;
     sf_write := fun data _ => Ok (string_of_list_ascii data);
     sf_info_duration := duration secs;
     nr_reduce_noise := fun y _ => Ok y;
     whisper_load_model := fun _ _ => Ok tt;
     whisper_transcribe := fun _ _ _ => Ok "Alice: ship v2 Friday.";
     ChatCompletion_create := fun _ req => chat analysis protocol req;
     get_file := fun _ u => Ok {| file_id := audio u |};
     download := fun _ _ => fetch;
     reply := fun t _ _ => send t;
     float_str := fun q => pretty (Qnum q / Zpos (Qden q)) +:+ ".0" |}.

Definition alice : Update :=
  {| from_user := Some {| username := Some "alice"; id := 42 |};
     audio := "AgADBAAD" |}.

Definition bob : Update :=
  {| from_user := Some {| username := None; id := 7 |};
     audio := "AgADBQAD" |}.

Definition w0 : world := World ∅ [].

Definition delivered : nat -> result unit := fun _ => Ok tt.
Definition undelivered : nat -> result unit := fun _ => Raise net_down.

(** a reply of the model that uses CR LF line ends *)
Definition crlf_reply : string :=
  "1. ship v2" +:+ String CR (String LF "2. QA: Bob").

(** the usual service: five minutes of audio, everything answers *)
Definition usual : services ascii unit :=
  ext 300 (Ok "RIFFdata") (Ok "Alice, Bob; ship v2 Friday; QA: Bob")
      (Ok "# Protocol") delivered.

(** the chat service answers the protocol prompt with nothing *)
Definition mute : services ascii unit :=
  ext 300 (Ok "RIFFdata") (Ok "Alice, Bob; ship v2 Friday; QA: Bob")
      (Ok EmptyString) delivered.

(** no route to Telegram: neither the download nor any reply gets through *)
Definition offline : services ascii unit :=
  ext 300 (Raise net_down) (Ok "Alice, Bob; ship v2 Friday; QA: Bob")
      (Ok "# Protocol") undelivered.


(** the chat service refuses the API key on every request *)
Definition refused : services ascii unit :=
  ext 300 (Ok "RIFFdata") (Raise auth_error) (Raise auth_error) delivered.

End Demo.

(** * Properties *)

(** ** The digest on the test suite of RFC 1321 *)

Example md5_empty :
  MD5.hexdigest EmptyString = "d41d8cd98f00b204e9800998ecf8427e".
Proof. vm_compute. reflexivity. Qed.

Example md5_abc : MD5.hexdigest "abc" = "900150983cd24fb0d6963f7d28e17f72".
Proof. vm_compute. reflexivity. Qed.

Example md5_message_digest :
  MD5.hexdigest "message digest" = "f96b697d7cb7938d525a2f31aaf161d0".
Proof. vm_compute. reflexivity. Qed.

Example md5_two_blocks :
  MD5.hexdigest
    "12345678901234567890123456789012345678901234567890123456789012345678901234567890"
  = "57edf4a22be3c955ac49da2e2107b67a".
Proof. vm_compute. reflexivity. Qed.

(** ** Strings, digests and paths *)

Lemma append_nil (s : string) : EmptyString +:+ s = s.
Proof. reflexivity. Qed.

Lemma append_cons c (s t : string) : String c s +:+ t = String c (s +:+ t).
Proof. reflexivity. Qed.

Lemma length_append (s t : string) :
  String.length (s +:+ t) = (String.length s + String.length t)%nat.
Proof.
  induction s as [|c s IH]; [done|].
  rewrite append_cons. simpl. by rewrite IH.
Qed.

Lemma append_inj_l (p a b : string) : p +:+ a = p +:+ b -> a = b.
Proof.
  induction p as [|c p IH]; [done|].
  rewrite !append_cons. intros [=]. auto.
Qed.

Lemma append_inj_r (a b s : string) : a +:+ s = b +:+ s -> a = b.
Proof.
  intros H.
  assert (Hl : String.length a = String.length b).
  { apply (f_equal String.length) in H.
    rewrite !length_append in H. lia. }
  revert b H Hl. induction a as [|c a IH]; intros [|d b]; try done.
  rewrite !append_cons. intros [= -> H] [=]. f_equal. auto.
Qed.

Lemma hexdigit_inj a3 a2 a1 a0 b3 b2 b1 b0 :
  MD5.hexdigit a3 a2 a1 a0 = MD5.hexdigit b3 b2 b1 b0 ->
  a3 = b3 /\ a2 = b2 /\ a1 = b1 /\ a0 = b0.
Proof.
  destruct a3, a2, a1, a0, b3, b2, b1, b0; simpl; intros H;
    first [done | discriminate H].
Qed.

Lemma hex_inj (xs ys : list ascii) : MD5.hex xs = MD5.hex ys -> xs = ys.
Proof.
  revert ys. induction xs as [|[a0 a1 a2 a3 a4 a5 a6 a7] xs IH];
    intros [|[b0 b1 b2 b3 b4 b5 b6 b7] ys]; simpl; try done.
  intros [= Hhi Hlo Hrest].
  apply hexdigit_inj in Hhi as (-> & -> & -> & ->).
  apply hexdigit_inj in Hlo as (-> & -> & -> & ->).
  f_equal. auto.
Qed.

Lemma cache_file_eq (a b : string) :
  cache_file a = cache_file b <-> MD5.digest a = MD5.digest b.
Proof.
  unfold cache_file, os_path_join, MD5.hexdigest. split.
  - intros H. apply append_inj_l, append_inj_l, append_inj_r in H.
    by apply hex_inj.
  - by intros ->.
Qed.

Lemma cache_dir_not_cache_file a : cache_dir <> cache_file a.
Proof. unfold cache_dir, cache_file, os_path_join. by rewrite !append_cons. Qed.

Lemma input_file_not_cache_dir f : input_file_of f <> cache_dir.
Proof. unfold input_file_of, cache_dir. by rewrite !append_cons. Qed.

Lemma input_file_not_cache_file f a : input_file_of f <> cache_file a.
Proof.
  unfold input_file_of, cache_file, os_path_join, cache_dir.
  by rewrite !append_cons.
Qed.

Lemma cache_file_not_input_file f a : cache_file a <> input_file_of f.
Proof. intros H. by apply (input_file_not_cache_file f a). Qed.

Lemma cache_dir_not_input_file f : cache_dir <> input_file_of f.
Proof. intros H. by apply (input_file_not_cache_dir f). Qed.

Lemma cache_file_not_cache_dir a : cache_file a <> cache_dir.
Proof. intros H. by apply (cache_dir_not_cache_file a). Qed.

Create HintDb paths.
#[local] Hint Resolve cache_dir_not_cache_file input_file_not_cache_dir
  input_file_not_cache_file cache_file_not_input_file
  cache_dir_not_input_file cache_file_not_cache_dir : paths.

Ltac paths_ne := solve [done | auto with paths].

Lemma pretty_MAX_AUDIO_DURATION : pretty MAX_AUDIO_DURATION = "7200"%string.
Proof. vm_compute. reflexivity. Qed.

(** ** Universal newlines *)

Lemma no_CR_LF s : no_CR (String LF s) = no_CR s.
Proof. reflexivity. Qed.

Lemma universal_newlines_no_CR s : no_CR (universal_newlines s) = true.
Proof.
  assert (H : forall n s, (String.length s <= n)%nat ->
                          no_CR (universal_newlines s) = true).
  { clear s. induction n as [|n IH]; intros [|c s] Hn; try done.
    { simpl in Hn. lia. }
    assert (Hs : no_CR (universal_newlines s) = true).
    { apply IH. simpl in Hn. lia. }
    cbn [universal_newlines].
    destruct (Ascii.eqb c CR) eqn:Hc.
    - destruct s as [|c' s]; [done|].
      destruct (Ascii.eqb c' LF); rewrite no_CR_LF; [|done].
      apply IH. simpl in Hn. lia.
    - cbn [no_CR]. by rewrite Hc, Hs. }
  by apply (H (String.length s)).
Qed.

Lemma universal_newlines_id s : no_CR s = true -> universal_newlines s = s.
Proof.
  induction s as [|c s IH]; simpl; [done|].
  destruct (Ascii.eqb c CR); simpl; [done|]. intros H. by rewrite IH.
Qed.

Lemma universal_newlines_idemp s :
  universal_newlines (universal_newlines s) = universal_newlines s.
Proof. apply universal_newlines_id, universal_newlines_no_CR. Qed.


(** ** Running the model symbolically *)

Ltac unfold_calls :=
  unfold call_sf_read, call_reduce_noise, call_sf_write, call_sf_info,
    call_load_model, call_transcribe, call_chat, call_get_file,
    download_to_drive, reply_text, logger_info, logger_error,
    read_text, write_text, os_makedirs, os_path_exists, os_remove, put_file,
    stat, extern, emit, try_except, bind, ret, raise, now in *.

(** Case on the innermost scrutinee of the first [match] in sight. *)
Ltac step_on x :=
  lazymatch x with
  | context [match ?y with _ => _ end] => step_on y
  | _ => destruct x eqn:?
  end.

Ltac step :=
  match goal with
  | |- context [match ?x with _ => _ end] => step_on x
  end.

Ltac step_in H :=
  match type of H with
  | context [match ?x with _ => _ end] => step_on x
  end.

Ltac simp_lookup_in H :=
  first [ rewrite lookup_insert_eq in H
        | rewrite lookup_insert_ne in H by paths_ne
        | rewrite lookup_delete_eq in H
        | rewrite lookup_delete_ne in H by paths_ne ].

Ltac tidy :=
  cbn [fs trace fst snd] in *;
  repeat match goal with
         | H : context [<[_:=_]> _ !! _] |- _ => simp_lookup_in H
         | H : context [delete _ _ !! _] |- _ => simp_lookup_in H
         end;
  simplify_eq.

(** Reduce the goal, resolving lookups through inserts and known facts. *)
Ltac simp_fs :=
  repeat first
    [ progress cbn beta iota delta [fs trace fst snd]
    | rewrite lookup_insert_eq
    | rewrite lookup_insert_ne by paths_ne
    | rewrite lookup_delete_eq
    | rewrite lookup_delete_ne by paths_ne
    | match goal with
      | E : ?m !! ?k = _ |- context [?m !! ?k] => rewrite E
      end ].

(** ** The cache key (C9) *)



Example cache_file_one_character_apart :
  cache_file "ship v2 Friday" <> cache_file "ship v3 Friday".
Proof. rewrite cache_file_eq. vm_compute. discriminate. Qed.

(** ** The protocol cache (C1) *)

(** Once [generate_protocol] has returned a protocol for a text, a later
    call for that text, with any services, touches neither the world nor
    the chat service, and returns the cached file as text mode reads it. *)
Lemma generate_protocol_again {Sample Model}
      (ext ext' : services Sample Model) (a r : string) (w w1 : world) :
  generate_protocol ext a w = (Ok r, w1) ->
  generate_protocol ext' a w1 = (Ok (universal_newlines r), w1).
Proof.
  pose proof (cache_dir_not_cache_file a) as Hne.
  unfold generate_protocol. unfold_calls. intros H.
  repeat (step_in H; tidy).
  all: simp_fs.
  all: by rewrite ?universal_newlines_idemp.
Qed.

(** X1.  Where the protocol has no carriage return, the second call returns the
    very bytes of the first. *)
Lemma generate_protocol_idempotent {Sample Model}
      (ext ext' : services Sample Model) (a r : string) (w w1 : world) :
  generate_protocol ext a w = (Ok r, w1) ->
  no_CR r = true ->
  generate_protocol ext' a w1 = (Ok r, w1).
Proof.
  intros H Hr. erewrite generate_protocol_again by done.
  by rewrite universal_newlines_id.
Qed.

(** C1. On an empty cache, with a chat service whose protocol has CR LF
    line ends, the first call returns the service's bytes, and the second
    call, which does not reach the service, returns them with the line ends
    rewritten: the two results differ. *)
Theorem generate_protocol_cache_rewrites_line_ends :
  let ext := Demo.ext 300 (Ok "RIFFdata") (Ok "analysis")
                      (Ok Demo.crlf_reply) Demo.delivered in
  exists first second w1 w2,
    generate_protocol ext "analysis" Demo.w0 = (Ok first, w1) /\
    generate_protocol ext "analysis" w1 = (Ok second, w2) /\
    first = Demo.crlf_reply /\
    second = ("1. ship v2" +:+ String LF "2. QA: Bob") /\
    first <> second /\
    chats (trace w2) = chats (trace w1).
Proof.
  do 4 eexists. split; [vm_compute; reflexivity|].
  split; [vm_compute; reflexivity|].
  split; [reflexivity|]. split; [reflexivity|].
  split; [vm_compute; discriminate|reflexivity].
Qed.

(** ** The duration ceiling (C2) *)

Lemma too_long_message_eq {Sample Model} (ext : services Sample Model) d :
  too_long_message ext d =
  "Аудио слишком длинное (" +:+ float_str ext d +:+ "s > 7200s)".
Proof. unfold too_long_message. by rewrite pretty_MAX_AUDIO_DURATION. Qed.

(** C2. Let the duration of the file be measured as [d].  If [d] is at most
    7200, the ceiling included, the transcriber runs the inference and its
    outcome is the inference's; if [d] is beyond 7200, it raises the error
    whose text names [d] and 7200, logs it, and the inference is not
    called. *)
Theorem transcribe_audio_duration_boundary {Sample Model}
        (ext : services Sample Model) (WHISPER_MODEL : Model)
        (audio_file : string) (w : world) (d : Q) :
  sf_info_duration ext (fs w !! audio_file) = Ok d ->
  ((d <= inject_Z 7200)%Q ->
   transcribe_audio ext WHISPER_MODEL audio_file w =
   match whisper_transcribe ext (S (now w)) WHISPER_MODEL
                            (fs w !! audio_file) with
   | Ok text =>
       (Ok text,
        World (fs w)
              (trace w ++ [EvSfInfo audio_file; EvTranscribe audio_file]))
   | Raise e =>
       (Raise e,
        World (fs w)
              (trace w ++ [EvSfInfo audio_file; EvTranscribe audio_file;
                           EvLog ERROR ("Ошибка транскрибации: "
                                          +:+ exn_str e)]))
   end) /\
  ((inject_Z 7200 < d)%Q ->
   transcribe_audio ext WHISPER_MODEL audio_file w =
   (Raise (ValueError ("Аудио слишком длинное (" +:+ float_str ext d
                         +:+ "s > 7200s)")),
    World (fs w)
          (trace w ++ [EvSfInfo audio_file;
                       EvLog ERROR ("Ошибка транскрибации: "
                                      +:+ "Аудио слишком длинное ("
                                      +:+ float_str ext d
                                      +:+ "s > 7200s)")]))).
Proof.
  intros Hd. unfold transcribe_audio. unfold_calls. cbn [fs trace].
  rewrite Hd, too_long_message_eq.
  change (inject_Z MAX_AUDIO_DURATION) with (inject_Z 7200).
  split; intros Hle.
  - apply Qle_bool_iff in Hle. rewrite Hle. cbn [negb fs trace].
    rewrite length_app, Nat.add_1_r.
    destruct (whisper_transcribe _ _ _ _); cbn [fs trace];
      by rewrite <- ?app_assoc.
  - apply Qlt_not_le in Hle. rewrite <- Qle_bool_iff in Hle.
    destruct (Qle_bool d (inject_Z 7200)); [done|].
    cbn [negb fs trace exn_str ValueError]. by rewrite <- !app_assoc.
Qed.

(** At the ceiling the inference runs; one second beyond, it does not. *)
Lemma transcribe_audio_duration_boundary_witness :
  let at_ceiling := Demo.ext 7200 (Ok "RIFFdata") (Ok "a") (Ok "p")
                             Demo.delivered in
  let beyond := Demo.ext 7201 (Ok "RIFFdata") (Ok "a") (Ok "p")
                         Demo.delivered in
  let w := World {[ "t.wav"%string := File "RIFFdata" ]} [] in
  transcribe_audio at_ceiling tt "t.wav" w =
    (Ok "Alice: ship v2 Friday."%string,
     World (fs w) [EvSfInfo "t.wav"; EvTranscribe "t.wav"]) /\
  transcribe_audio beyond tt "t.wav" w =
    (Raise (ValueError "Аудио слишком длинное (7201.0s > 7200s)"),
     World (fs w)
           [EvSfInfo "t.wav";
            EvLog ERROR
              "Ошибка транскрибации: Аудио слишком длинное (7201.0s > 7200s)"]).
Proof.
  intros at_ceiling beyond w. split.
  - apply (proj1 (transcribe_audio_duration_boundary
                    at_ceiling tt "t.wav" w 7200 eq_refl)).
    vm_compute. discriminate.
  - apply (proj2 (transcribe_audio_duration_boundary
                    beyond tt "t.wav" w 7201 eq_refl)).
    vm_compute. reflexivity.
Defined.

(** ** The empty buffer (C3) *)

(** C3. Let the input file decode to [data] at [rate].  If [data] has no
    sample, the cleaner raises the empty-file error and logs it, with the
    file system as it was and no event but the read and the log: no
    transform, no write.  If [data] has a sample, the run goes on to the
    noise-reduction transform.  And in the handler, a download that decodes
    to no sample ends with the failure path right after the read: no
    transform, no write, no transcription and no chat request occur. *)
Theorem clean_audio_rejects_empty_buffer {Sample Model}
        (ext : services Sample Model) :
  (forall input_file output_file w data rate,
      sf_read ext (fs w !! input_file) = Ok (data, rate) ->
      (data = [] ->
       clean_audio ext input_file output_file w =
       (Raise (ValueError "Пустой аудиофайл"),
        World (fs w)
              (trace w ++ [EvSfRead input_file;
                           EvLog ERROR
                             "Ошибка очистки аудио: Пустой аудиофайл"]))) /\
      (data <> [] ->
       exists evs,
         trace (snd (clean_audio ext input_file output_file w)) =
         trace w ++ EvSfRead input_file :: EvReduceNoise :: evs)) /\
  (forall (WHISPER_MODEL : Model) update user file raw rate w,
      from_user update = Some user ->
      get_file ext (now w + 1) update = Ok file ->
      download ext (now w + 2) file = Ok raw ->
      fs w !! input_file_of file <> Some Dir ->
      sf_read ext (Some (File raw)) = Ok ([], rate) ->
      exists evs,
        trace (snd (handle_audio ext WHISPER_MODEL update w)) =
          trace w ++ evs /\
        Forall (fun ev => is_transform ev = false) evs /\
        errors evs = ["Ошибка очистки аудио: Пустой аудиофайл"%string;
                      "Ошибка обработки: Пустой аудиофайл"%string] /\
        fst <$> replies evs = [(FAILURE_NOTICE, None)]).
Proof.
  split.
  - intros input_file output_file w data rate Hread. split.
    + intros ->. unfold clean_audio. unfold_calls. cbn [fs trace].
      rewrite Hread. cbn [length Nat.eqb fs trace]. by rewrite <- !app_assoc.
    + intros Hdata. unfold clean_audio. unfold_calls. cbn [fs trace].
      rewrite Hread. destruct data as [|x data]; [done|].
      cbn [length Nat.eqb fs trace].
      repeat (step; tidy); rewrite <- ?app_assoc; by eexists.
  - intros WHISPER_MODEL update user file raw rate w Hu Hf Hd Hnode Hread.
    unfold handle_audio, handle_audio_body, greeting, clean_audio.
    unfold_calls. rewrite Hu. cbn [fs trace].
    rewrite length_app. cbn [length]. rewrite Hf. cbn [fs trace].
    rewrite !length_app. cbn [length]. rewrite <- Nat.add_assoc.
    cbn [Nat.add]. rewrite Hd.
    destruct (fs w !! input_file_of file) as [[c|]|] eqn:Hp; [|done|].
    all: simp_fs; rewrite Hread; cbn [length Nat.eqb].
    all: simp_fs; rewrite <- !app_assoc; eexists; split; [done|].
    all: by repeat constructor.
Qed.

(** A zero-byte download, a four-byte one, and a zero-byte one through the
    handler. *)
Lemma clean_audio_rejects_empty_buffer_witness :
  let ext := Demo.ext 300 (Ok EmptyString) (Ok "a") (Ok "p")
                      Demo.delivered in
  let silent := World {[ "in.wav"%string := File EmptyString ]} [] in
  let spoken := World {[ "in.wav"%string := File "RIFF" ]} [] in
  clean_audio ext "in.wav" "out.wav" silent =
    (Raise (ValueError "Пустой аудиофайл"),
     World (fs silent)
           [EvSfRead "in.wav";
            EvLog ERROR "Ошибка очистки аудио: Пустой аудиофайл"]) /\
  (exists evs,
      trace (snd (clean_audio ext "in.wav" "out.wav" spoken)) =
      EvSfRead "in.wav" :: EvReduceNoise :: evs) /\
  (exists evs,
      trace (snd (handle_audio ext tt Demo.alice Demo.w0)) = evs /\
      Forall (fun ev => is_transform ev = false) evs /\
      errors evs = ["Ошибка очистки аудио: Пустой аудиофайл"%string;
                    "Ошибка обработки: Пустой аудиофайл"%string] /\
      fst <$> replies evs = [(FAILURE_NOTICE, None)]).
Proof.
  intros ext silent spoken.
  destruct (clean_audio_rejects_empty_buffer ext) as [Hclean Hhandle].
  split; [|split].
  - apply (proj1 (Hclean "in.wav"%string "out.wav"%string silent [] 16000
                         eq_refl) eq_refl).
  - apply (proj2 (Hclean "in.wav"%string "out.wav"%string spoken
                         (list_ascii_of_string "RIFF") 16000 eq_refl)).
    discriminate.
  - apply (Hhandle tt Demo.alice
                   {| username := Some "alice"%string; id := 42 |}
                   {| file_id := "AgADBAAD" |} EmptyString 16000 Demo.w0);
      [reflexivity | reflexivity | reflexivity | | reflexivity].
    vm_compute. discriminate.
Defined.

(** ** What one run of the body of the handler does *)

Ltac unfold_handler :=
  unfold handle_audio_body, generate_protocol, analyze_text,
    transcribe_audio, clean_audio, greeting; unfold_calls.

(** Membership in an explicit list of events. *)
Ltac in_list := cbn [In]; repeat first [left; reflexivity | right].

(** A changed path is one of the keys written on the way. *)
Ltac frame_tac Hp :=
  repeat match type of Hp with
    | context [<[?k := _]> _ !! ?p] =>
        destruct (decide (p = k)) as [->|];
        [ first [ by left
                | by right; left; eexists
                | right; right; in_list ]
        | rewrite lookup_insert_ne in Hp by done ]
    | context [delete ?k _ !! ?p] =>
        destruct (decide (p = k)) as [->|];
        [ first [ by left
                | by right; left; eexists
                | right; right; in_list ]
        | rewrite lookup_delete_ne in Hp by done ]
    end;
  try done.

(** Split a membership in an explicit list of events into its cases. *)
Ltac in_cases H :=
  cbn [In] in H;
  repeat match type of H with
    | _ \/ _ => destruct H as [H|H]
    end;
  try done; simplify_eq.

(** A path that exists still exists after inserts. *)
Ltac kept_tac :=
  repeat match goal with
    | |- <[?k := _]> _ !! ?p <> None =>
        destruct (decide (p = k)) as [->|];
        [ by rewrite lookup_insert_eq
        | rewrite lookup_insert_ne by done ]
    end;
  try done.

Lemma handle_audio_body_outcome {Sample Model} (ext : services Sample Model)
      (WHISPER_MODEL : Model) (update : Update) (w : world) :
  let run := handle_audio_body ext WHISPER_MODEL update w in
  exists evs,
    trace (snd run) = trace w ++ evs /\
    loads evs = [] /\
    (forall p, changed w (snd run) p ->
               p = cache_dir \/ (exists a, p = cache_file a) \/
               In (EvDownload p) evs) /\
    match fst run with
    | Ok _ =>
        (exists f, In (EvDownload (input_file_of f)) evs) /\
        (forall p, In (EvDownload p) evs -> fs (snd run) !! p = None) /\
        errors evs = [] /\
        exists protocol a c,
          replies evs = [(SUCCESS_PREFIX +:+ protocol, Some "Markdown"%string,
                          true)] /\
          fs (snd run) !! cache_file a = Some (File c) /\
          universal_newlines c = universal_newlines protocol
    | Raise e =>
        (forall p, fs w !! p <> None -> fs (snd run) !! p <> None) /\
        (forall p, In (EvSfRead p) evs ->
                   exists c, fs (snd run) !! p = Some (File c)) /\
        Forall (fun r => r.2 = false) (replies evs)
    end.
Proof.
  unfold changed. unfold_handler.
  repeat (step; tidy; simp_fs).
  all: rewrite <- ?app_assoc; cbn [app].
  all: first [ exists []; rewrite app_nil_r; split; [reflexivity|]
             | eexists; split; [reflexivity|] ].
  all: (split; [reflexivity|]).
  all: (split; [intros p Hp; frame_tac Hp|]).
  all: cbn [fst].
  all: try (split; [intros p Hp; by kept_tac|];
            split; [intros p Hin; in_cases Hin; eexists; by simp_fs|];
            by repeat constructor).
  all: split; [eexists; in_list|].
  all: split; [intros p Hin; in_cases Hin; by simp_fs|].
  all: split; [reflexivity|].
  all: first
         [ match goal with
           | H : _ !! cache_file ?x = Some (File ?c) |- _ =>
               exists (universal_newlines c), x, c
           end
         | match goal with
           | |- context [<[cache_file ?x := File ?c]> _] => exists c, x, c
           end ].
  all: split; [reflexivity|].
  all: split; [by simp_fs|by rewrite ?universal_newlines_idemp].
Qed.

(** The handler is its body, followed on a raise by the log line and the
    failure notice. *)
Lemma handle_audio_eq {Sample Model} (ext : services Sample Model)
      (WHISPER_MODEL : Model) (update : Update) (w : world) :
  handle_audio ext WHISPER_MODEL update w =
  match handle_audio_body ext WHISPER_MODEL update w with
  | (Ok a, w1) => (Ok a, w1)
  | (Raise e, w1) =>
      let sent := reply ext (S (now w1)) FAILURE_NOTICE None in
      (sent,
       World (fs w1)
             (trace w1 ++ [EvLog ERROR ("Ошибка обработки: " +:+ exn_str e);
                           EvReply FAILURE_NOTICE None (was_ok sent)]))
  end.
Proof.
  unfold handle_audio. unfold_calls.
  destruct (handle_audio_body _ _ _ _) as [[a|e] w1]; [done|].
  cbn [fs trace]. by rewrite length_app, Nat.add_1_r, <- app_assoc.
Qed.

(** The body is its first part followed by analysis, generation, reply and
    removal. *)
Lemma handle_audio_body_split {Sample Model} (ext : services Sample Model)
      (WHISPER_MODEL : Model) (update : Update) (w : world) :
  handle_audio_body ext WHISPER_MODEL update w =
  ('(input_file, transcript) <- up_to_transcript ext WHISPER_MODEL update ;;
   analysis <- analyze_text ext transcript ;;
   protocol <- generate_protocol ext analysis ;;
   reply_text ext (SUCCESS_PREFIX +:+ protocol) (Some "Markdown"%string) ;;;
   os_remove input_file) w.
Proof.
  unfold handle_audio_body, up_to_transcript, bind, ret.
  repeat (step; try done).
Qed.

Lemma up_to_transcript_outcome {Sample Model} (ext : services Sample Model)
      (WHISPER_MODEL : Model) (update : Update) (w w1 : world)
      (input_file transcript : string) :
  up_to_transcript ext WHISPER_MODEL update w
    = (Ok (input_file, transcript), w1) ->
  (exists f, input_file = input_file_of f) /\
  (forall p, p <> input_file -> fs w1 !! p = fs w !! p) /\
  exists evs, trace w1 = trace w ++ evs /\
              chats evs = [] /\ errors evs = [] /\ replies evs = [].
Proof.
  unfold up_to_transcript, transcribe_audio, clean_audio, greeting.
  unfold_calls. intros H.
  repeat (step_in H; tidy; simp_fs).
  all: split; [by eexists|].
  all: split; [intros p Hp; by rewrite ?lookup_insert_ne by done|].
  all: rewrite <- ?app_assoc; cbn [app]; by eexists.
Qed.

(** ** A failing analysis call (C5) *)

(** C5. Let the request get as far as a transcript, and let the chat
    service raise [e] on the analysis request.  Then the handler makes no
    further chat request (no protocol is generated), logs [e] twice with
    its text, sends the failure notice as its only reply, and leaves the
    cache directory and every cache file as they were before the request:
    the temporary file is the only path that may differ. *)
Theorem analysis_failure_atomic {Sample Model} (ext : services Sample Model)
        (WHISPER_MODEL : Model) (update : Update) (w w1 : world)
        (input_file transcript : string) (e : exn) :
  up_to_transcript ext WHISPER_MODEL update w
    = (Ok (input_file, transcript), w1) ->
  ChatCompletion_create ext (now w1) (analysis_request transcript)
    = Raise e ->
  let run := handle_audio ext WHISPER_MODEL update w in
  (exists evs,
      trace (snd run) = trace w ++ evs /\
      chats evs = [analysis_request transcript] /\
      errors evs = ["Ошибка анализа текста: " +:+ exn_str e;
                    "Ошибка обработки: " +:+ exn_str e] /\
      replies evs = [(FAILURE_NOTICE, None, was_ok (fst run))]) /\
  fs (snd run) !! cache_dir = fs w !! cache_dir /\
  (forall a, fs (snd run) !! cache_file a = fs w !! cache_file a) /\
  (forall p, p <> input_file -> fs (snd run) !! p = fs w !! p).
Proof.
  intros Hpre He.
  destruct (up_to_transcript_outcome _ _ _ _ _ _ _ Hpre)
    as ([f ->] & Hframe & evs & Hevs & Hchats & Herrors & Hreplies).
  intros run.
  assert (Hrun : run =
    (reply ext (3 + now w1) FAILURE_NOTICE None,
     World (fs w1)
           (trace w1 ++
            [EvChat (analysis_request transcript);
             EvLog ERROR ("Ошибка анализа текста: " +:+ exn_str e);
             EvLog ERROR ("Ошибка обработки: " +:+ exn_str e);
             EvReply FAILURE_NOTICE None
                     (was_ok (reply ext (3 + now w1) FAILURE_NOTICE None))]))).
  { subst run. rewrite handle_audio_eq, handle_audio_body_split.
    unfold bind at 1. rewrite Hpre.
    unfold analyze_text, bind at 1. unfold_calls. rewrite He.
    cbn [fs trace]. rewrite !length_app. cbn [length].
    replace (S (length (trace w1) + 1 + 1)) with (3 + length (trace w1))%nat
      by lia.
    by rewrite <- !app_assoc. }
  rewrite Hrun. cbn [fst snd fs trace].
  split; [|split; [|split]].
  - eexists. rewrite Hevs, <- !app_assoc. split; [done|].
    unfold chats, errors, replies in *. rewrite !omap_app.
    by rewrite Hchats, Herrors, Hreplies.
  - apply Hframe. paths_ne.
  - intros a. apply Hframe. paths_ne.
  - done.
Qed.

(** The chat service rejects the API key on the analysis request. *)
Lemma analysis_failure_atomic_witness :
  let ext := Demo.ext 300 (Ok "RIFFdata") (Raise Demo.auth_error)
                      (Ok "# Protocol") Demo.delivered in
  let run := handle_audio ext tt Demo.alice Demo.w0 in
  (exists evs,
      trace (snd run) = evs /\
      chats evs = [analysis_request "Alice: ship v2 Friday."] /\
      errors evs = ["Ошибка анализа текста: Incorrect API key provided"%string;
                    "Ошибка обработки: Incorrect API key provided"%string] /\
      replies evs = [(FAILURE_NOTICE, None, true)]) /\
  fs (snd run) !! cache_dir = None /\
  (forall a, fs (snd run) !! cache_file a = None) /\
  (forall p, p <> input_file_of {| file_id := "AgADBAAD" |} ->
             fs (snd run) !! p = None).
Proof.
  intros ext run.
  apply (analysis_failure_atomic
           ext tt Demo.alice Demo.w0
           (snd (up_to_transcript ext tt Demo.alice Demo.w0))
           (input_file_of {| file_id := "AgADBAAD" |})
           "Alice: ship v2 Friday."%string Demo.auth_error).
  - vm_compute. reflexivity.
  - vm_compute. reflexivity.
Defined.

(** ** What reaches the user (C4) *)



(** ** Exceptions and the handler (C10) *)

(** C10. With no route to Telegram the download raises; the handler
    catches that and logs it, the failure notice cannot be sent either, and
    this second exception leaves [handle_audio]: the handler does not
    return normally. *)
Lemma handle_audio_raises_when_notice_fails :
  handle_audio Demo.offline tt Demo.alice Demo.w0 =
  (Raise Demo.net_down,
   World ∅
         [EvLog INFO "Получено аудио от alice (42)";
          EvGetFile;
          EvDownload "temp_03cec8fc814ac687c6c4887764f8056e.wav";
          EvLog ERROR "Ошибка обработки: httpx.ConnectError";
          EvReply FAILURE_NOTICE None false]).
Proof. vm_compute. reflexivity. Qed.



(** ** The temporary file (C7) *)

(** C7. In one run of the handler only the cache directory, cache files
    and the path the attachment was downloaded to can change.  If the
    statements under [try:] run to their end, the protocol was delivered
    and the downloaded file is gone afterwards.  If one of them raises, no
    protocol was delivered, no path that existed before is missing
    afterwards, and a downloaded file that cleaning has started on is still
    there: the failure path removes nothing. *)
Theorem temp_file_removed_on_success_only {Sample Model}
        (ext : services Sample Model) (WHISPER_MODEL : Model)
        (update : Update) (w : world) :
  let body := handle_audio_body ext WHISPER_MODEL update w in
  let run := handle_audio ext WHISPER_MODEL update w in
  exists evs,
    trace (snd run) = trace w ++ evs /\
    (forall p, changed w (snd run) p ->
               p = cache_dir \/ (exists a, p = cache_file a) \/
               In (EvDownload p) evs) /\
    match fst body with
    | Ok _ =>
        (exists protocol,
            replies evs = [(SUCCESS_PREFIX +:+ protocol,
                            Some "Markdown"%string, true)]) /\
        (exists f, In (EvDownload (input_file_of f)) evs) /\
        (forall p, In (EvDownload p) evs -> fs (snd run) !! p = None)
    | Raise _ =>
        Forall (fun r => r.2 = true -> r.1 = (FAILURE_NOTICE, None))
               (replies evs) /\
        (forall p, fs w !! p <> None -> fs (snd run) !! p <> None) /\
        (forall p, In (EvSfRead p) evs ->
                   exists c, fs (snd run) !! p = Some (File c))
    end.
Proof.
  intros body run. subst body run. rewrite handle_audio_eq.
  destruct (handle_audio_body_outcome ext WHISPER_MODEL update w)
    as (evs & Htrace & _ & Hframe & Hcase).
  destruct (handle_audio_body ext WHISPER_MODEL update w) as [[[]|e] w1];
    cbn [fst snd fs trace] in *.
  - exists evs. split; [done|]. split; [done|].
    destruct Hcase as (Hf & Hgone & _ & protocol & a & c & Hrep & _).
    split; [by exists protocol|]. by split.
  - destruct Hcase as (Hkept & Hthere & Hundelivered).
    eexists. rewrite Htrace, <- app_assoc. split; [done|].
    split; [|split; [|split]].
    + intros p Hp. destruct (Hframe p Hp) as [|[|Hin]]; auto.
      right. right. apply in_or_app. by left.
    + unfold replies. rewrite omap_app. apply Forall_app. split.
      * eapply Forall_impl; [exact Hundelivered|].
        intros r Hr Ht. congruence.
      * by repeat constructor.
    + done.
    + intros p Hin. apply Hthere.
      apply in_app_or in Hin as [|Hin]; [done|]. by in_cases Hin.
Qed.

(** A run that succeeds and a run whose analysis call is refused. *)
Lemma temp_file_removed_on_success_only_witness :
  (exists evs,
      trace (snd (handle_audio Demo.usual tt Demo.alice Demo.w0)) = evs /\
      In (EvDownload "temp_03cec8fc814ac687c6c4887764f8056e.wav") evs /\
      fs (snd (handle_audio Demo.usual tt Demo.alice Demo.w0))
        !! "temp_03cec8fc814ac687c6c4887764f8056e.wav" = None) /\
  (exists c,
      fs (snd (handle_audio Demo.refused tt Demo.alice Demo.w0))
        !! "temp_03cec8fc814ac687c6c4887764f8056e.wav" = Some (File c)).
Proof.
  split.
  - pose proof (temp_file_removed_on_success_only
                  Demo.usual tt Demo.alice Demo.w0) as H.
    cbv zeta in H. destruct H as (evs & Htrace & _ & Hcase).
    assert (Hbody : fst (handle_audio_body Demo.usual tt Demo.alice Demo.w0)
                    = Ok tt) by (vm_compute; reflexivity).
    rewrite Hbody in Hcase. destruct Hcase as (_ & _ & Hgone).
    change (trace Demo.w0 ++ evs) with evs in Htrace.
    exists evs. split; [exact Htrace|].
    assert (Hin : In (EvDownload "temp_03cec8fc814ac687c6c4887764f8056e.wav")
                     evs).
    { rewrite <- Htrace. vm_compute. tauto. }
    split; [exact Hin|]. exact (Hgone _ Hin).
  - pose proof (temp_file_removed_on_success_only
                  Demo.refused tt Demo.alice Demo.w0) as H.
    cbv zeta in H. destruct H as (evs & Htrace & _ & Hcase).
    assert (Hbody : fst (handle_audio_body Demo.refused tt Demo.alice Demo.w0)
                    = Raise Demo.auth_error) by (vm_compute; reflexivity).
    rewrite Hbody in Hcase. destruct Hcase as (_ & _ & Hthere).
    change (trace Demo.w0 ++ evs) with evs in Htrace.
    apply Hthere. rewrite <- Htrace. vm_compute. tauto.
Defined.

(** ** The failure notice (C6) *)

Lemma since_app (w w' : world) (evs : list event) :
  trace w' = trace w ++ evs -> since w w' = evs.
Proof. unfold since, now. intros ->. by rewrite drop_app_length. Qed.





(** ** The text of an exception does not reach the user *)

Section Simulation.
Context {A B : Type}.

Lemma wsim_now (w w' : world) : wsim w w' -> now w = now w'.
Proof. intros [_ H]. unfold now. by eapply Forall2_length. Qed.

Lemma wsim_snoc (w w' : world) (ev ev' : event) :
  wsim w w' -> alike ev ev' ->
  wsim (World (fs w) (trace w ++ [ev])) (World (fs w') (trace w' ++ [ev'])).
Proof.
  intros [Hfs Htr] Hev. split; [done|]. cbn [trace].
  apply Forall2_app; [done|]. by constructor.
Qed.

Lemma sim_ret (a : A) : sim (ret a) (ret a).
Proof. by intros w w' H. Qed.

Lemma sim_raise (e e' : exn) : sim (@raise A e) (raise e').
Proof. by intros w w' H. Qed.

Lemma sim_bind (m m' : M A) (k k' : A -> M B) :
  sim m m' -> (forall a, sim (k a) (k' a)) -> sim (bind m k) (bind m' k').
Proof.
  intros Hm Hk w w' Hw. unfold bind.
  destruct (Hm w w' Hw) as [Hr Hw1].
  destruct (m w) as [[a|e] w1], (m' w') as [[a'|e'] w1'];
    cbn [fst snd rsim] in *; try done.
  subst a'. by apply Hk.
Qed.

Lemma sim_try_except (m m' : M A) (h h' : exn -> M A) :
  sim m m' -> (forall e e', sim (h e) (h' e')) ->
  sim (try_except m h) (try_except m' h').
Proof.
  intros Hm Hh w w' Hw. unfold try_except.
  destruct (Hm w w' Hw) as [Hr Hw1].
  destruct (m w) as [[a|e] w1], (m' w') as [[a'|e'] w1'];
    cbn [fst snd rsim] in *; try done.
  by apply Hh.
Qed.

Lemma sim_extern (ev ev' : result A -> event) (o o' : nat -> result A) :
  (forall r r', rsim r r' -> alike (ev r) (ev' r')) ->
  (forall t, rsim (o t) (o' t)) ->
  sim (extern ev o) (extern ev' o').
Proof.
  intros Hev Ho w w' Hw. unfold extern. cbn [fst snd].
  rewrite <- (wsim_now w w' Hw). split; [done|].
  apply wsim_snoc; [done|]. by apply Hev.
Qed.

Lemma rsim_relabel (f : exn -> exn) (r : result A) : rsim r (relabel f r).
Proof. by destruct r. Qed.

End Simulation.

Lemma sim_logger_error (msg msg' : string) :
  sim (logger_error msg) (logger_error msg').
Proof.
  intros w w' Hw. split; [done|]. apply wsim_snoc; [done|]. constructor.
Qed.

Lemma sim_logger_info (msg : string) : sim (logger_info msg) (logger_info msg).
Proof.
  intros w w' Hw. split; [done|]. apply wsim_snoc; [done|]. constructor.
Qed.

(** A computation that reads and writes files only, and raises what the
    file system raises, is alike with itself. *)
Lemma sim_stat path : sim (stat path) (stat path).
Proof. intros w w' [Hfs Htr]. unfold stat. cbn. by rewrite Hfs. Qed.

Lemma sim_put_file path content : sim (put_file path content) (put_file path content).
Proof.
  intros w w' [Hfs Htr]. unfold put_file. rewrite <- Hfs.
  by destruct (fs w !! path) as [[]|]; cbn; rewrite <- ?Hfs.
Qed.

Lemma sim_os_makedirs path : sim (os_makedirs path) (os_makedirs path).
Proof.
  intros w w' [Hfs Htr]. unfold os_makedirs. rewrite <- Hfs.
  by destruct (fs w !! path) as [[]|]; cbn; rewrite <- ?Hfs.
Qed.

Lemma sim_os_path_exists path : sim (os_path_exists path) (os_path_exists path).
Proof. intros w w' [Hfs Htr]. unfold os_path_exists. cbn. by rewrite Hfs. Qed.

Lemma sim_os_remove path : sim (os_remove path) (os_remove path).
Proof.
  intros w w' [Hfs Htr]. unfold os_remove. rewrite <- Hfs.
  by destruct (fs w !! path) as [[]|]; cbn; rewrite <- ?Hfs.
Qed.

Lemma sim_read_text path : sim (read_text path) (read_text path).
Proof.
  intros w w' [Hfs Htr]. unfold read_text. rewrite <- Hfs.
  by destruct (fs w !! path) as [[]|].
Qed.

Create HintDb sim.
#[local] Hint Resolve sim_ret sim_raise sim_logger_error sim_logger_info
  sim_stat sim_put_file
  sim_os_makedirs sim_os_path_exists sim_os_remove sim_read_text
  rsim_relabel : sim.

(** One step of a simulation proof, following the shape of the program. *)
Ltac sim_step :=
  match goal with
  | |- sim (bind _ _) (bind _ _) => apply sim_bind; [|intros ?]
  | |- sim (try_except _ _) (try_except _ _) =>
      apply sim_try_except; [|intros ? ?]
  | |- sim (extern _ _) (extern _ _) =>
      apply sim_extern;
      [ intros [?|?] [?|?]; cbn [rsim was_ok]; intros; subst;
        first [done | constructor]
      | intros ?; cbn; auto with sim ]
  | |- sim (if ?b then _ else _) _ => destruct b
  | |- sim (match ?x with _ => _ end) _ => destruct x
  | |- _ => solve [auto with sim]
  end.

Lemma sim_handle_audio {Sample Model} (f : exn -> exn)
      (ext : services Sample Model) (WHISPER_MODEL : Model)
      (update : Update) :
  sim (handle_audio ext WHISPER_MODEL update)
      (handle_audio (relabel_services f ext) WHISPER_MODEL update).
Proof.
  unfold handle_audio, handle_audio_body, generate_protocol, analyze_text,
    transcribe_audio, clean_audio, greeting, write_text,
    call_sf_read, call_reduce_noise, call_sf_write, call_sf_info,
    call_transcribe, call_chat, call_get_file, download_to_drive,
    reply_text.
  repeat sim_step.
Qed.

Lemma alike_replies (t t' : list event) :
  Forall2 alike t t' -> replies t = replies t'.
Proof.
  induction 1 as [|ev ev' t t' Hev _ IH]; [done|].
  unfold replies in *. cbn [omap list_omap]. rewrite IH.
  by destruct Hev.
Qed.

Lemma rsim_was_ok {A} (r r' : result A) : rsim r r' -> was_ok r = was_ok r'.
Proof. by destruct r, r'. Qed.

(** X19.  Let every collaborator raise [f e] where it raised [e], for any [f]:
    the handler sends the same replies with the same outcome, leaves the
    same files, and ends the same way.  Only the log can tell the two runs
    apart. *)
Theorem exception_text_does_not_reach_the_user {Sample Model}
        (f : exn -> exn) (ext : services Sample Model)
        (WHISPER_MODEL : Model) (update : Update) (w : world) :
  let run := handle_audio ext WHISPER_MODEL update w in
  let run' := handle_audio (relabel_services f ext) WHISPER_MODEL update w in
  replies (trace (snd run')) = replies (trace (snd run)) /\
  fs (snd run') = fs (snd run) /\
  was_ok (fst run') = was_ok (fst run).
Proof.
  intros run run'.
  destruct (sim_handle_audio f ext WHISPER_MODEL update w w)
    as (Hr & Hfs & Htr).
  { split; [done|]. apply Forall2_same_length_lookup.
    split; [done|]. intros i ev ev' H1 H2.
    rewrite H1 in H2. injection H2 as <-. constructor. }
  fold run in Hr, Hfs, Htr. fold run' in Hr, Hfs, Htr.
  split; [symmetry; by apply alike_replies|].
  split; [done|]. symmetry. by apply rsim_was_ok.
Qed.

(** ** Loading the speech model (C8) *)

Lemma loads_app (t1 t2 : list event) : loads (t1 ++ t2) = loads t1 ++ loads t2.
Proof. unfold loads. apply omap_app. Qed.

Lemma handle_audio_no_load {Sample Model} (ext : services Sample Model)
      (WHISPER_MODEL : Model) (update : Update) (w : world) :
  exists evs,
    trace (snd (handle_audio ext WHISPER_MODEL update w)) = trace w ++ evs /\
    loads evs = [].
Proof.
  rewrite handle_audio_eq.
  destruct (handle_audio_body_outcome ext WHISPER_MODEL update w)
    as (evs & Htrace & Hloads & _).
  destruct (handle_audio_body ext WHISPER_MODEL update w) as [[[]|e] w1];
    cbn [fst snd fs trace] in *.
  - by exists evs.
  - eexists. rewrite Htrace, <- app_assoc. split; [done|].
    rewrite loads_app, Hloads. done.
Qed.

Lemma serve_no_load {Sample Model} (ext : services Sample Model)
      (WHISPER_MODEL : Model) (updates : list Update) (w : world) :
  exists evs,
    trace (snd (serve (handle_audio ext WHISPER_MODEL) updates w))
      = trace w ++ evs /\
    loads evs = [].
Proof.
  revert w. induction updates as [|u rest IH]; intros w.
  - exists []. by rewrite app_nil_r.
  - destruct (handle_audio_no_load ext WHISPER_MODEL u w)
      as (evs1 & Htrace1 & Hloads1).
    cbn [serve]. unfold bind, dispatch, try_except, ret.
    destruct (handle_audio ext WHISPER_MODEL u w) as [[[]|e] w1];
      cbn [snd] in Htrace1.
    all: destruct (IH w1) as (evs2 & Htrace2 & Hloads2).
    all: exists (evs1 ++ evs2).
    all: rewrite Htrace2, Htrace1, <- app_assoc, loads_app, Hloads1, Hloads2.
    all: done.
Qed.

(** X18.  In neuro_secretary2.py the model is loaded when the process starts,
    before any update is handled, and never again, however many updates
    follow. *)
Lemma process_loads_once {Sample Model} (ext : services Sample Model)
      (updates : list Update) (w : world) :
  exists evs,
    trace (snd (process ext updates w))
      = trace w ++ EvLoadModel "base" :: evs /\
    loads evs = [].
Proof.
  unfold process, call_load_model, extern, bind.
  destruct (whisper_load_model ext (now w) "base") as [m|e];
    cbn [fs trace snd].
  - destruct (serve_no_load ext m updates
                (World (fs w) (trace w ++ [EvLoadModel "base"])))
      as (evs & Htrace & Hloads).
    exists evs. cbn [trace] in Htrace. by rewrite Htrace, <- app_assoc.
  - by exists [].
Qed.

(** In neuro_secretary.py every call of the transcriber starts with a load
    of the model. *)
Lemma v1_transcribe_audio_loads {Sample Model} (ext : services Sample Model)
      (audio_file : string) (w : world) :
  exists evs,
    trace (snd (V1.transcribe_audio ext audio_file w))
      = trace w ++ EvLoadModel "base" :: evs.
Proof.
  unfold V1.transcribe_audio, V1.WHISPER_MODEL. unfold_calls.
  repeat (step; tidy); rewrite <- ?app_assoc; by eexists.
Qed.


(** * Further properties of the code *)


(** ** More on the protocol generator *)

(** X2.  A path that holds a file or a directory before [generate_protocol]
    holds the same afterwards: entries of the cache are written once and
    never rewritten or removed by the generator. *)
Theorem generate_protocol_keeps_nodes {Sample Model}
        (ext : services Sample Model) (a : string) (w : world)
        (p : string) (n : node) :
  fs w !! p = Some n ->
  fs (snd (generate_protocol ext a w)) !! p = Some n.
Proof.
  unfold generate_protocol. unfold_calls. intros Hp.
  repeat (step; tidy; simp_fs); try done.
  all: repeat match goal with
         | |- <[?k := _]> _ !! ?q = _ =>
             destruct (decide (q = k)) as [->|];
             [congruence | rewrite lookup_insert_ne by done]
         end.
  all: done.
Qed.

Lemma generate_protocol_keeps_nodes_witness :
  let w := World {[ cache_dir := Dir;
                    cache_file "other" := File "# Earlier protocol" ]} [] in
  fs (snd (generate_protocol Demo.usual "analysis" w)) !! cache_file "other"
  = Some (File "# Earlier protocol").
Proof.
  intros w.
  apply (generate_protocol_keeps_nodes Demo.usual "analysis" w).
  vm_compute. reflexivity.
Defined.

(** X3.  A call that misses the cache and returns [r]: [r] is what the chat
    service answered to the protocol request, that request is the only
    event of the call, and the cache file of the text now holds [r], byte
    for byte. *)
Theorem generate_protocol_miss_populates {Sample Model}
        (ext : services Sample Model) (a r : string) (w w1 : world) :
  generate_protocol ext a w = (Ok r, w1) ->
  fs w !! cache_file a = None ->
  ChatCompletion_create ext (now w) (protocol_request a) = Ok r /\
  trace w1 = trace w ++ [EvChat (protocol_request a)] /\
  fs w1 !! cache_file a = Some (File r) /\
  fs w1 !! cache_dir = Some Dir.
Proof.
  unfold generate_protocol. unfold_calls. intros H Hmiss.
  repeat (step_in H; tidy; simp_fs); try congruence.
  all: by simp_fs.
Qed.

Lemma generate_protocol_miss_populates_witness :
  let run := generate_protocol Demo.usual "analysis" Demo.w0 in
  ChatCompletion_create Demo.usual 0 (protocol_request "analysis")
    = Ok "# Protocol"%string /\
  trace (snd run) = [EvChat (protocol_request "analysis")] /\
  fs (snd run) !! cache_file "analysis" = Some (File "# Protocol") /\
  fs (snd run) !! cache_dir = Some Dir.
Proof.
  intros run.
  apply (generate_protocol_miss_populates
           Demo.usual "analysis" "# Protocol" Demo.w0 (snd run)).
  - vm_compute. reflexivity.
  - vm_compute. reflexivity.
Defined.



(** The protocol of a text whose first generation had no carriage return:
    a later call, though the chat service would now answer with nothing,
    returns the first protocol and leaves the world as it is. *)
Lemma generate_protocol_idempotent_witness :
  let first := generate_protocol Demo.usual "analysis" Demo.w0 in
  generate_protocol Demo.mute "analysis" (snd first)
  = (Ok "# Protocol"%string, snd first).
Proof.
  intros first.
  apply (generate_protocol_idempotent
           Demo.usual Demo.mute "analysis" "# Protocol" Demo.w0 (snd first)).
  - vm_compute. reflexivity.
  - reflexivity.
Defined.

(** ** More on the stages *)

(** X5.  What [clean_audio] leaves behind.  If it returns, the input decoded to
    a non-empty buffer, and the output path holds the encoding of the
    denoised buffer at the rate of the input, nothing else having changed
    and no error being logged.  If it raises, the file system is as before
    and the error log has one new line, with the text of the exception it
    raises. *)
Theorem clean_audio_outcome {Sample Model} (ext : services Sample Model)
        (input_file output_file : string) (w : world) :
  let run := clean_audio ext input_file output_file w in
  match fst run with
  | Ok _ =>
      exists data rate reduced bytes,
        sf_read ext (fs w !! input_file) = Ok (data, rate) /\
        data <> [] /\
        nr_reduce_noise ext data rate = Ok reduced /\
        sf_write ext reduced rate = Ok bytes /\
        fs (snd run) = <[output_file := File bytes]> (fs w) /\
        errors (since w (snd run)) = []
  | Raise e =>
      fs (snd run) = fs w /\
      errors (since w (snd run)) = ["Ошибка очистки аудио: " +:+ exn_str e]
  end.
Proof.
  unfold clean_audio. unfold_calls. cbn zeta.
  repeat (step; tidy; simp_fs).
  all: rewrite <- ?app_assoc; cbn [app].
  all: try (split; [done|]; by erewrite since_app by reflexivity).
  all: do 4 eexists; repeat split; try done.
  all: try by erewrite since_app by reflexivity.
  all: by intros ->.
Qed.

(** X6.  The transcriber and the analyzer never touch the file system, and
    each logs exactly when it raises: one error line, with the text of the
    exception it raises.  The transcriber makes no chat request; the
    analyzer makes exactly one, the analysis request for its text, whether
    it returns or raises. *)
Theorem transcribe_and_analyze_log_and_reraise {Sample Model}
        (ext : services Sample Model) (WHISPER_MODEL : Model) :
  (forall audio_file w,
      let run := transcribe_audio ext WHISPER_MODEL audio_file w in
      fs (snd run) = fs w /\
      chats (since w (snd run)) = [] /\
      errors (since w (snd run)) =
        match fst run with
        | Ok _ => []
        | Raise e => ["Ошибка транскрибации: " +:+ exn_str e]
        end) /\
  (forall text w,
      let run := analyze_text ext text w in
      fs (snd run) = fs w /\
      chats (since w (snd run)) = [analysis_request text] /\
      errors (since w (snd run)) =
        match fst run with
        | Ok _ => []
        | Raise e => ["Ошибка анализа текста: " +:+ exn_str e]
        end).
Proof.
  split.
  - intros audio_file w. unfold transcribe_audio. unfold_calls. cbn zeta.
    repeat (step; tidy; simp_fs).
    all: rewrite <- ?app_assoc; cbn [app].
    all: by erewrite since_app by reflexivity.
  - intros text w. unfold analyze_text. unfold_calls. cbn zeta.
    repeat (step; tidy; simp_fs).
    all: rewrite <- ?app_assoc; cbn [app].
    all: by erewrite since_app by reflexivity.
Qed.

(** ** More on the handler *)

Lemma since_handled {Sample Model} (ext : services Sample Model)
      (WHISPER_MODEL : Model) (update : Update) (w : world) (evs : list event) :
  trace (snd (handle_audio_body ext WHISPER_MODEL update w)) = trace w ++ evs ->
  exists rest,
    since w (snd (handle_audio ext WHISPER_MODEL update w)) = evs ++ rest /\
    match fst (handle_audio_body ext WHISPER_MODEL update w) with
    | Ok _ => rest = []
    | Raise e =>
        rest = [EvLog ERROR ("Ошибка обработки: " +:+ exn_str e);
                EvReply FAILURE_NOTICE None
                  (was_ok (fst (handle_audio ext WHISPER_MODEL update w)))]
    end /\
    fs (snd (handle_audio ext WHISPER_MODEL update w))
    = fs (snd (handle_audio_body ext WHISPER_MODEL update w)).
Proof.
  rewrite handle_audio_eq.
  destruct (handle_audio_body ext WHISPER_MODEL update w) as [[[]|e] w1];
    cbn [fst snd fs trace]; intros Htrace.
  - exists []. rewrite app_nil_r. split; [by apply since_app|done].
  - eexists. split; [|done].
    apply since_app. by rewrite Htrace, <- app_assoc.
Qed.





(** ** What the whole process keeps *)

(** A node under a path that is not the name of a temporary file is the
    same after a run of the handler. *)
Lemma handle_audio_keeps_nodes {Sample Model} (ext : services Sample Model)
      (WHISPER_MODEL : Model) (update : Update) (w : world)
      (p : string) (n : node) :
  (forall f, p <> input_file_of f) ->
  fs w !! p = Some n ->
  fs (snd (handle_audio ext WHISPER_MODEL update w)) !! p = Some n.
Proof.
  intros Hne Hp.
  destruct (since_handled ext WHISPER_MODEL update w
              (since w (snd (handle_audio_body ext WHISPER_MODEL update w))))
    as (_ & _ & _ & ->).
  { destruct (handle_audio_body_outcome ext WHISPER_MODEL update w)
      as (evs & Htrace & _).
    by rewrite (since_app _ _ _ Htrace). }
  revert Hp. unfold_handler.
  repeat (step; tidy; simp_fs); intros Hp; try done.
  all: repeat match goal with
         | |- <[?k := _]> _ !! ?q = _ =>
             destruct (decide (q = k)) as [->|];
             [ exfalso; first [congruence | by eapply Hne]
             | rewrite lookup_insert_ne by done ]
         | |- delete ?k _ !! ?q = _ =>
             destruct (decide (q = k)) as [->|];
             [ exfalso; first [congruence | by eapply Hne]
             | rewrite lookup_delete_ne by done ]
         end.
  all: done.
Qed.

Lemma serve_keeps_nodes {Sample Model} (ext : services Sample Model)
      (WHISPER_MODEL : Model) (updates : list Update) (w : world)
      (p : string) (n : node) :
  (forall f, p <> input_file_of f) ->
  fs w !! p = Some n ->
  fs (snd (serve (handle_audio ext WHISPER_MODEL) updates w)) !! p = Some n.
Proof.
  intros Hne. revert w. induction updates as [|u rest IH]; intros w Hp.
  - done.
  - pose proof (handle_audio_keeps_nodes ext WHISPER_MODEL u w p n Hne Hp)
      as Hstep.
    cbn [serve]. unfold bind, dispatch, try_except, ret.
    destruct (handle_audio ext WHISPER_MODEL u w) as [[[]|e] w1];
      cbn [snd] in Hstep; by apply IH.
Qed.

(** X10.  Whatever updates arrive and whatever the collaborators do, the process
    never changes or removes what was there: a file or directory that
    exists when the process starts, under a path that is not the name of a
    temporary file, is the same when it ends.  An entry of the protocol
    cache, once written, lives for ever. *)
Theorem process_keeps_nodes {Sample Model} (ext : services Sample Model)
        (updates : list Update) (w : world) (p : string) (n : node) :
  (forall f, p <> input_file_of f) ->
  fs w !! p = Some n ->
  fs (snd (process ext updates w)) !! p = Some n.
Proof.
  intros Hne Hp. unfold process, call_load_model, extern, bind.
  destruct (whisper_load_model ext (now w) "base") as [m|e]; cbn [snd fs].
  - by apply serve_keeps_nodes.
  - done.
Qed.

Lemma process_keeps_nodes_witness :
  let w := World {[ cache_dir := Dir;
                    cache_file "other" := File "# Earlier protocol" ]} [] in
  fs (snd (process Demo.usual [Demo.alice; Demo.bob] w)) !! cache_file "other"
  = Some (File "# Earlier protocol").
Proof.
  intros w.
  apply (process_keeps_nodes Demo.usual [Demo.alice; Demo.bob] w).
  - intros f. apply cache_file_not_input_file.
  - vm_compute. reflexivity.
Defined.

(** ** The names of the files *)

Lemma le_bytes_length (n : nat) (x : Z) : length (MD5.le_bytes n x) = n.
Proof. unfold MD5.le_bytes. by rewrite List.length_map, List.length_seq. Qed.

Lemma digest_length (s : string) : length (MD5.digest s) = 16%nat.
Proof.
  unfold MD5.digest. cbv zeta.
  by rewrite List.length_map, !List.length_app, !le_bytes_length.
Qed.

Lemma hexdigit_is_hex b3 b2 b1 b0 : is_hex (MD5.hexdigit b3 b2 b1 b0) = true.
Proof. by destruct b3, b2, b1, b0. Qed.

Lemma hex_shape (bs : list ascii) :
  String.length (MD5.hex bs) = (2 * length bs)%nat /\
  forallb is_hex (list_ascii_of_string (MD5.hex bs)) = true.
Proof.
  induction bs as [|[b0 b1 b2 b3 b4 b5 b6 b7] bs [IHl IHh]]; [done|].
  cbn [MD5.hex String.length length list_ascii_of_string forallb].
  rewrite IHl, IHh, !hexdigit_is_hex. split; [lia|done].
Qed.

(** X11.  Whatever the file identifier and whatever the analysis text, the name
    of the temporary file is [temp_], 32 hexadecimal digits and [.wav], and
    the name of the cache file is [cache/], 32 hexadecimal digits and
    [.txt]: no character of the identifier or of the text gets into a
    path. *)
Theorem file_names_shape :
  (forall f, exists h,
        input_file_of f = "temp_" +:+ h +:+ ".wav" /\
        String.length h = 32%nat /\
        forallb is_hex (list_ascii_of_string h) = true) /\
  (forall a, exists h,
        cache_file a = "cache/" +:+ h +:+ ".txt" /\
        String.length h = 32%nat /\
        forallb is_hex (list_ascii_of_string h) = true).
Proof.
  split.
  - intros f. exists (MD5.hexdigest (file_id f)). split; [done|].
    unfold MD5.hexdigest.
    destruct (hex_shape (MD5.digest (file_id f))) as [Hl Hh].
    by rewrite Hl, digest_length.
  - intros a. exists (MD5.hexdigest a). split; [done|].
    unfold MD5.hexdigest.
    destruct (hex_shape (MD5.digest a)) as [Hl Hh].
    by rewrite Hl, digest_length.
Qed.

(** ** neuro_secretary.py *)

Ltac unfold_v1 :=
  unfold V1.handle_audio, V1.generate_protocol, V1.analyze_text,
    V1.transcribe_audio, V1.clean_audio, V1.WHISPER_MODEL; unfold_calls.

(** X14.  The handler of neuro_secretary.py catches nothing and cleans up
    nothing.  It never writes to the log.  If it returns, its one reply is
    the protocol, bare and delivered, after exactly two chat requests, and
    the downloaded and the cleaned file are both still there.  If a stage
    raises, the exception leaves the handler and nothing is delivered to
    the user.  Either way only the two fixed paths can differ afterwards
    and no path that existed is missing. *)
Theorem v1_handle_audio_outcome {Sample Model} (ext : services Sample Model)
        (update : Update) (w : world) :
  let run := V1.handle_audio ext update w in
  (forall lvl msg, ~ In (EvLog lvl msg) (since w (snd run))) /\
  (forall p, p <> "input_audio.wav"%string -> p <> "cleaned_audio.wav"%string ->
             fs (snd run) !! p = fs w !! p) /\
  (forall p, fs w !! p <> None -> fs (snd run) !! p <> None) /\
  match fst run with
  | Ok _ =>
      (exists protocol,
          replies (since w (snd run)) = [(protocol, None, true)]) /\
      length (chats (since w (snd run))) = 2%nat /\
      (exists raw cleaned,
          fs (snd run) !! "input_audio.wav" = Some (File raw) /\
          fs (snd run) !! "cleaned_audio.wav" = Some (File cleaned))
  | Raise _ => delivered (since w (snd run)) = []
  end.
Proof.
  unfold_v1. cbn zeta.
  repeat (step; tidy; simp_fs).
  all: rewrite <- ?app_assoc; cbn [app].
  all: try (erewrite since_app by reflexivity).
  all: try (erewrite since_app by (symmetry; apply app_nil_r)).
  all: (split; [intros lvl msg Hin; by in_cases Hin|]).
  all: (split; [intros p Hp1 Hp2; by rewrite ?lookup_insert_ne by done|]).
  all: (split; [intros p Hp; by kept_tac|]).
  all: cbn [fst]; try done.
  all: split; [by eexists|]. 
  all: split; [done|].
  all: do 2 eexists; split; by simp_fs.
Qed.

(** X15.  neuro_secretary.py checks neither the buffer nor the duration: an
    input that decodes to no sample is handed to the noise reduction, and
    the transcriber never measures the file it transcribes. *)
Theorem v1_has_no_input_checks {Sample Model} (ext : services Sample Model) :
  (forall input_file output_file w rate,
      sf_read ext (fs w !! input_file) = Ok ([], rate) ->
      exists evs,
        since w (snd (V1.clean_audio ext input_file output_file w))
        = EvSfRead input_file :: EvReduceNoise :: evs) /\
  (forall audio_file w path,
      ~ In (EvSfInfo path)
           (since w (snd (V1.transcribe_audio ext audio_file w)))).
Proof.
  split.
  - intros input_file output_file w rate Hread. unfold_v1. cbn [fs trace].
    rewrite Hread. 
    repeat (step; tidy; simp_fs).
    all: rewrite <- ?app_assoc; cbn [app].
    all: erewrite since_app by reflexivity; by eexists.
  - intros audio_file w path. unfold_v1.
    repeat (step; tidy; simp_fs).
    all: rewrite <- ?app_assoc; cbn [app].
    all: erewrite since_app by reflexivity.
    all: intros Hin; by in_cases Hin.
Qed.

Lemma v1_has_no_input_checks_witness :
  let silent := World {[ "in.wav"%string := File EmptyString ]} [] in
  exists evs,
    since silent (snd (V1.clean_audio Demo.usual "in.wav" "out.wav" silent))
    = EvSfRead "in.wav" :: EvReduceNoise :: evs.
Proof.
  intros silent.
  apply (proj1 (v1_has_no_input_checks Demo.usual)
               "in.wav"%string "out.wav"%string silent 16000).
  reflexivity.
Defined.

(** ** The polling loop of [main] *)

Lemma route_no_load {Sample Model} (ext : services Sample Model)
      (WHISPER_MODEL : Model) (i : Incoming) (w : world) :
  exists evs,
    trace (snd (route ext WHISPER_MODEL i w)) = trace w ++ evs /\
    loads evs = [].
Proof.
  destruct i as [name|update|]; cbn [route].
  - destruct (String.eqb name "start").
    + unfold start, reply_text, extern. cbn [snd trace]. by eexists.
    + exists []. by rewrite app_nil_r.
  - apply handle_audio_no_load.
  - exists []. by rewrite app_nil_r.
Qed.

Lemma run_polling_outcome {Sample Model} (ext : services Sample Model)
      (WHISPER_MODEL : Model) (incoming : list Incoming) (w : world) :
  fst (run_polling ext WHISPER_MODEL incoming w) = Ok tt /\
  exists evs,
    trace (snd (run_polling ext WHISPER_MODEL incoming w)) = trace w ++ evs /\
    loads evs = [].
Proof.
  revert w. induction incoming as [|i rest IH]; intros w.
  - split; [done|]. exists []. by rewrite app_nil_r.
  - destruct (route_no_load ext WHISPER_MODEL i w) as (evs1 & Ht1 & Hl1).
    cbn [run_polling]. unfold bind, try_except, ret.
    destruct (route ext WHISPER_MODEL i w) as [[[]|e] w1]; cbn [snd] in Ht1.
    all: destruct (IH w1) as (Hok & evs2 & Ht2 & Hl2).
    all: split; [done|]; exists (evs1 ++ evs2).
    all: by rewrite Ht2, Ht1, <- app_assoc, loads_app, Hl1, Hl2.
Qed.

(** X16.  [main] returns normally whatever arrives and whatever the handlers
    raise, it never loads the speech model, and the line that says the bot
    has started is the last thing it does, after the last update has been
    handled. *)
Theorem main_logs_start_at_the_end {Sample Model}
        (ext : services Sample Model) (WHISPER_MODEL : Model)
        (incoming : list Incoming) (w : world) :
  let run := main ext WHISPER_MODEL incoming w in
  fst run = Ok tt /\
  exists evs,
    since w (snd run) = evs ++ [EvLog INFO "Бот успешно запущен"] /\
    since w (snd (run_polling ext WHISPER_MODEL incoming w)) = evs /\
    loads evs = [].
Proof.
  intros run. subst run. unfold main, bind, logger_info, emit.
  destruct (run_polling_outcome ext WHISPER_MODEL incoming w)
    as (Hok & evs & Htrace & Hloads).
  destruct (run_polling ext WHISPER_MODEL incoming w) as [r w1].
  cbn [fst snd] in *. subst r. cbn [fst snd trace].
  split; [done|]. exists evs. split; [|split; [|done]].
  - apply since_app. by rewrite Htrace, <- app_assoc.
  - by apply since_app.
Qed.



(** ** What a chat request presupposes *)

Lemma not_too_long (d : Q) :
  negb (Qle_bool d (inject_Z MAX_AUDIO_DURATION)) = false ->
  (d <= inject_Z 7200)%Q.
Proof.
  intros H. apply Qle_bool_iff.
  change (inject_Z 7200) with (inject_Z MAX_AUDIO_DURATION).
  by destruct (Qle_bool d (inject_Z MAX_AUDIO_DURATION)).
Qed.

(** X12.  The handler makes a chat request only for audio that passed both
    checks: whenever a run contains a chat request, the download decoded to
    a non-empty buffer, that buffer was denoised and written back, the
    duration measured on the cleaned file was at most 7200 seconds, the
    transcription ran on the cleaned file, and the first chat request is
    the analysis request for the transcript.  Empty or over-long audio
    never costs a request. *)
Theorem chat_only_after_checks {Sample Model} (ext : services Sample Model)
        (WHISPER_MODEL : Model) (update : Update) (w : world) :
  chats (since w (snd (handle_audio ext WHISPER_MODEL update w))) <> [] ->
  exists raw data rate reduced cleaned d transcript t,
    sf_read ext (Some (File raw)) = Ok (data, rate) /\
    data <> [] /\
    nr_reduce_noise ext data rate = Ok reduced /\
    sf_write ext reduced rate = Ok cleaned /\
    sf_info_duration ext (Some (File cleaned)) = Ok d /\
    (d <= inject_Z 7200)%Q /\
    whisper_transcribe ext t WHISPER_MODEL (Some (File cleaned))
      = Ok transcript /\
    head (chats (since w (snd (handle_audio ext WHISPER_MODEL update w))))
      = Some (analysis_request transcript).
Proof.
  unfold handle_audio. unfold_handler.
  repeat (step; tidy; simp_fs).
  all: rewrite <- ?app_assoc; cbn [app].
  all: try (erewrite since_app by reflexivity).
  all: try (erewrite since_app by (symmetry; apply app_nil_r)).
  all: intros Hchats; try done.
  all: match goal with
       | H : negb (Qle_bool _ _) = false |- _ => apply not_too_long in H
       end.
  all: match goal with
       | H : (length ?l =? 0)%nat = false |- _ =>
           assert (l <> []) by (by intros ->); clear H
       end.
  all: do 8 eexists; repeat split; try eassumption; reflexivity.
Qed.

Lemma chat_only_after_checks_witness :
  exists raw data rate reduced cleaned d transcript t,
    sf_read Demo.refused (Some (File raw)) = Ok (data, rate) /\
    data <> [] /\
    nr_reduce_noise Demo.refused data rate = Ok reduced /\
    sf_write Demo.refused reduced rate = Ok cleaned /\
    sf_info_duration Demo.refused (Some (File cleaned)) = Ok d /\
    (d <= inject_Z 7200)%Q /\
    whisper_transcribe Demo.refused t tt (Some (File cleaned))
      = Ok transcript /\
    head (chats (since Demo.w0
                       (snd (handle_audio Demo.refused tt Demo.alice
                                          Demo.w0))))
      = Some (analysis_request transcript).
Proof.
  apply (chat_only_after_checks Demo.refused tt Demo.alice Demo.w0).
  vm_compute. discriminate.
Defined.

(** X13.  Where a delivered protocol comes from.  If the statements under [try:]
    run to their end, the one reply is the success marker followed by a
    protocol for the analysis that the chat service gave for the
    transcript; and that protocol is the text of the cache file of the
    analysis as it was before the request, when there was one, the chat
    service not being asked, and otherwise the answer of the chat service
    to the protocol request. *)
Theorem delivered_protocol_provenance {Sample Model}
        (ext : services Sample Model) (WHISPER_MODEL : Model)
        (update : Update) (w : world) :
  fst (handle_audio_body ext WHISPER_MODEL update w) = Ok tt ->
  let evs := since w (snd (handle_audio_body ext WHISPER_MODEL update w)) in
  exists transcript analysis protocol t1,
    ChatCompletion_create ext t1 (analysis_request transcript)
      = Ok analysis /\
    replies evs = [(SUCCESS_PREFIX +:+ protocol, Some "Markdown"%string,
                    true)] /\
    ((exists c,
         fs w !! cache_file analysis = Some (File c) /\
         protocol = universal_newlines c /\
         chats evs = [analysis_request transcript]) \/
     (exists t2,
         fs w !! cache_file analysis = None /\
         ChatCompletion_create ext t2 (protocol_request analysis)
           = Ok protocol /\
         chats evs = [analysis_request transcript;
                      protocol_request analysis])).
Proof.
  unfold_handler. cbn zeta.
  repeat (step; tidy; simp_fs).
  all: rewrite <- ?app_assoc; cbn [app].
  all: try (erewrite since_app by reflexivity).
  all: try (erewrite since_app by (symmetry; apply app_nil_r)).
  all: intros Hok; try done.
  all: do 4 eexists; split; [eassumption|]; split; [reflexivity|].
  all: first [ left; eexists; split; [eassumption|]; by split
             | right; eexists; split; [eassumption|];
               split; [eassumption|reflexivity] ].
Qed.

Lemma delivered_protocol_provenance_witness :
  exists transcript analysis protocol t1,
    ChatCompletion_create Demo.usual t1 (analysis_request transcript)
      = Ok analysis /\
    replies (since Demo.w0
                   (snd (handle_audio_body Demo.usual tt Demo.alice Demo.w0)))
      = [(SUCCESS_PREFIX +:+ protocol, Some "Markdown"%string, true)] /\
    ((exists c,
         fs Demo.w0 !! cache_file analysis = Some (File c) /\
         protocol = universal_newlines c /\
         chats (since Demo.w0
                      (snd (handle_audio_body Demo.usual tt Demo.alice
                                              Demo.w0)))
           = [analysis_request transcript]) \/
     (exists t2,
         fs Demo.w0 !! cache_file analysis = None /\
         ChatCompletion_create Demo.usual t2 (protocol_request analysis)
           = Ok protocol /\
         chats (since Demo.w0
                      (snd (handle_audio_body Demo.usual tt Demo.alice
                                              Demo.w0)))
           = [analysis_request transcript; protocol_request analysis])).
Proof.
  apply (delivered_protocol_provenance Demo.usual tt Demo.alice Demo.w0).
  vm_compute. reflexivity.
Defined.
